(** * The ISS position pipeline (mywork/lab4/iss.py)

    A shallow embedding of the four functions of [iss.py] -- [extract],
    [transform], [load] and [main] -- together with the part of the Python
    run time they call: the [int] and [float] constructors, subscripting,
    [datetime.fromtimestamp] and [strftime], [requests.get], [open], the
    logger and [DataFrame.to_csv].  Python code that can raise is written in
    a state-and-exception monad over an explicit [world]; [try]/[except] is a
    combinator that dispatches on the class of the exception.

    Conventions.
    - A Python [str] is a Rocq [string] whose characters are the code points
      0..255 of the text (Latin-1).
    - A Python [int] is a [Z]; a Python [float] is a [spec_float] of the
      binary64 format, with IEEE round-to-nearest-even conversions.
    - The line terminator of text files is a line feed.
    - A file has one entry in the file system, under the path by which the
      pipeline names it; see [filesystem] for paths that name the same file
      and for paths that [pandas] and the operating system read differently. *)

From Stdlib Require Import ZArith String Ascii List Lia Bool.
From Stdlib Require Import Floats.SpecFloat Floats.PrimFloat Floats.FloatOps.
From stdpp Require Import base option gmap strings.

Set Warnings "-register-all,-inexact-float".
Set Default Proof Using "Type".

Open Scope Z_scope.

(** ** Characters and strings *)

Module Text.

Definition code (c : ascii) : Z := Z.of_nat (nat_of_ascii c).

Definition chars (s : string) : list ascii := list_ascii_of_string s.

Definition text (l : list ascii) : string := string_of_list_ascii l.

Definition is_digit (c : ascii) : bool := (48 <=? code c) && (code c <=? 57).

Definition digit_value (c : ascii) : Z := code c - 48.

Definition digit_char (d : Z) : ascii := ascii_of_nat (Z.to_nat (48 + d)).

(** The characters that [str] to number conversion treats as blanks: the six
    ASCII blanks of [Py_ISSPACE], and NEL and NBSP, the two Latin-1 characters
    above 127 with the Unicode White_Space property, which CPython turns into
    a space before it parses. *)
Definition is_space (c : ascii) : bool :=
  let n := code c in
  ((9 <=? n) && (n <=? 13)) || (n =? 32) || (n =? 133) || (n =? 160).

Definition lower (c : ascii) : ascii :=
  let n := code c in
  if (65 <=? n) && (n <=? 90) then ascii_of_nat (Z.to_nat (n + 32)) else c.

Fixpoint lstrip (l : list ascii) : list ascii :=
  match l with
  | c :: l' => if is_space c then lstrip l' else l
  | [] => []
  end.

Definition strip (l : list ascii) : list ascii := rev (lstrip (rev (lstrip l))).

(** Value of a run of decimal digits, most significant first. *)
Definition digits_value (l : list ascii) : Z :=
  fold_left (fun acc c => 10 * acc + digit_value c) l 0.

(** Decimal digits of a natural number, by repeated division; [fuel] bounds
    the number of digits. *)
Fixpoint digits_of (fuel : nat) (n : Z) (acc : list ascii) : list ascii :=
  match fuel with
  | O => acc
  | S fuel' =>
      let acc' := digit_char (n mod 10) :: acc in
      if n <? 10 then acc' else digits_of fuel' (n / 10) acc'
  end.

(** [str(n)] for an [int]. *)
Definition str_of_int (n : Z) : string :=
  let a := Z.abs n in
  let ds := digits_of (S (Z.to_nat (Z.log2 a))) a [] in
  text (if n <? 0 then "-"%char :: ds else ds).

(** Zero padding to a minimum width, as [%02d] and [%04d] do. *)
Definition zero_pad (width : nat) (n : Z) : string :=
  let ds := chars (str_of_int n) in
  text (repeat "0"%char (width - List.length ds) ++ ds).

Fixpoint join (sep : string) (l : list string) : string :=
  match l with
  | [] => ""
  | [s] => s
  | s :: l' => s +:+ sep +:+ join sep l'
  end.

End Text.

(** ** Exceptions *)

(** The exception classes that the modelled code can meet, with their direct
    bases in Python and in [requests].  [Exception] is the root of what an
    [except Exception] clause catches. *)
Inductive exn_class :=
| Exception
| LookupError | KeyError
| TypeError | ValueError | AttributeError
| ArithmeticError | OverflowError
| RuntimeError | RecursionError
| OSError
| JSONDecodeError
| RequestException | ConnectionError | HTTPError | Timeout
| InvalidJSONError | RequestsJSONDecodeError.

#[global] Instance exn_class_eq_dec : EqDecision exn_class.
Proof. solve_decision. Defined.

Definition bases (c : exn_class) : list exn_class :=
  match c with
  | Exception => []
  | LookupError => [Exception]
  | KeyError => [LookupError]
  | TypeError => [Exception]
  | ValueError => [Exception]
  | AttributeError => [Exception]
  | ArithmeticError => [Exception]
  | OverflowError => [ArithmeticError]
  | RuntimeError => [Exception]
  | RecursionError => [RuntimeError]
  | OSError => [Exception]
  | JSONDecodeError => [ValueError]
  | RequestException => [OSError]
  | ConnectionError => [RequestException]
  | HTTPError => [RequestException]
  | Timeout => [RequestException]
  | InvalidJSONError => [RequestException]
  | RequestsJSONDecodeError => [InvalidJSONError; JSONDecodeError]
  end.

(** [issubclass c d]: [d] is reached from [c] along [bases]; the hierarchy has
    depth five, which bounds the search. *)
Fixpoint issubclass_upto (depth : nat) (c d : exn_class) : bool :=
  bool_decide (c = d) ||
  match depth with
  | O => false
  | S depth' => existsb (fun b => issubclass_upto depth' b d) (bases c)
  end.

Definition issubclass (c d : exn_class) : bool := issubclass_upto 5 c d.

Record exn := mkExn { exn_cls : exn_class; exn_msg : string }.

Inductive result (A : Type) :=
| Ret (a : A)
| Raise (e : exn).
Arguments Ret {A} a.
Arguments Raise {A} e.

Definition returns {A} (r : result A) : bool :=
  match r with Ret _ => true | Raise _ => false end.

(** Evaluation of nested expressions: the first exception ends it. *)
Definition and_then {A B} (r : result A) (k : A -> result B) : result B :=
  match r with
  | Ret a => k a
  | Raise e => Raise e
  end.

(** ** Python values *)

(** The values that [json.loads] builds, which is what [resp.json()] hands to
    the pipeline.  A JSON object is a [dict] with [str] keys. *)
Inductive pyval :=
| PNone
| PBool (b : bool)
| PInt (z : Z)
| PFloat (f : spec_float)
| PStr (s : string)
| PList (l : list pyval)
| PDict (d : gmap string pyval).

(** Truth value of an object, as [not record] tests it. *)
Definition truthy (v : pyval) : bool :=
  match v with
  | PNone => false
  | PBool b => b
  | PInt z => negb (z =? 0)
  | PFloat (S754_zero _) => false
  | PFloat _ => true
  | PStr s => negb (String.eqb s "")
  | PList l => match l with [] => false | _ => true end
  | PDict d => negb (bool_decide (d = ∅))
  end.

(** [v[key]] for a [str] key.  A [dict] raises [KeyError] when the key is
    missing; a [list] or [str] wants an integer index and the other types are
    not subscriptable, all of which is a [TypeError]. *)
Definition getitem (v : pyval) (key : string) : result pyval :=
  match v with
  | PDict d =>
      match d !! key with
      | Some x => Ret x
      | None => Raise (mkExn KeyError key)
      end
  | PList _ => Raise (mkExn TypeError "list indices must be integers or slices, not str")
  | PStr _ => Raise (mkExn TypeError "string indices must be integers, not 'str'")
  | _ => Raise (mkExn TypeError "object is not subscriptable")
  end.

(** [data.get(key)]: only a [dict] has the method. *)
Definition get_method (v : pyval) (key : string) : result pyval :=
  match v with
  | PDict d => Ret (default PNone (d !! key))
  | _ => Raise (mkExn AttributeError "object has no attribute 'get'")
  end.

(** ** The [int] and [float] constructors *)

Module Num.

Import Text.

Definition prec : Z := 53.
Definition emax : Z := 1024.

Definition value_error (msg : string) : exn := mkExn ValueError msg.
Definition type_error (msg : string) : exn := mkExn TypeError msg.
Definition overflow_error (msg : string) : exn := mkExn OverflowError msg.

(** *** [int(str)] *)

(** Splits an optional sign off. *)
Definition take_sign (l : list ascii) : bool * list ascii :=
  match l with
  | "-"%char :: l' => (true, l')
  | "+"%char :: l' => (false, l')
  | _ => (false, l)
  end.

(** Reads digits and single underscores, as [PyLong_FromString] does: two
    underscores in a row or an underscore at the end are errors.  Returns the
    digits read, in order, and what follows them. *)
Fixpoint scan_int (prev_underscore : bool) (l : list ascii) (digits : list ascii)
  : option (list ascii * list ascii) :=
  match l with
  | c :: l' =>
      if is_digit c then scan_int false l' (c :: digits)
      else if Ascii.eqb c "_" then
        if prev_underscore then None else scan_int true l' digits
      else if prev_underscore then None else Some (rev digits, l)
  | [] => if prev_underscore then None else Some (rev digits, l)
  end.

(** The default of [sys.get_int_max_str_digits()] (CPython 3.11 and later). *)
Definition int_max_str_digits : nat := 4300.

Definition int_of_str (s : string) : result Z :=
  let bad := Raise (value_error "invalid literal for int() with base 10") in
  let '(neg, body) := take_sign (lstrip (chars s)) in
  match body with
  | "_"%char :: _ => bad
  | _ =>
      match scan_int false body [] with
      | None => bad
      | Some (digits, rest) =>
          match digits, lstrip rest with
          | _ :: _, [] =>
              if (int_max_str_digits <? List.length digits)%nat
              then Raise (value_error "Exceeds the limit (4300 digits) for integer string conversion")
              else let n := digits_value digits in Ret (if neg then - n else n)
          | _, _ => bad
          end
      end
  end.

(** *** [int(float)]: truncation toward zero *)

Definition int_of_float (f : spec_float) : result Z :=
  match f with
  | S754_zero _ => Ret 0
  | S754_infinity _ => Raise (overflow_error "cannot convert float infinity to integer")
  | S754_nan => Raise (value_error "cannot convert float NaN to integer")
  | S754_finite neg m e =>
      let a := if 0 <=? e then Z.pos m * 2 ^ e else Z.pos m / 2 ^ (- e) in
      Ret (if neg then - a else a)
  end.

Definition py_int (v : pyval) : result Z :=
  match v with
  | PInt z => Ret z
  | PBool b => Ret (if b then 1 else 0)
  | PFloat f => int_of_float f
  | PStr s => int_of_str s
  | _ => Raise (type_error "int() argument must be a string, a bytes-like object or a real number")
  end.

(** *** [float(int)] *)

Definition float_of_int (z : Z) : result spec_float :=
  match binary_normalize prec emax z 0 false with
  | S754_infinity _ => Raise (overflow_error "int too large to convert to float")
  | f => Ret f
  end.

(** *** [float(str)] *)

(** The binary64 number nearest to [(-1)^neg * m * 10^e10], ties to even;
    overflow gives an infinity and underflow a subnormal or a zero.  A
    negative power of ten is a division of integers, rounded once. *)
Definition float_of_decimal (neg : bool) (m e10 : Z) : spec_float :=
  match m with
  | Z.pos _ =>
      if 0 <=? e10 then
        match m * 10 ^ e10 with
        | Z.pos p => binary_round prec emax neg p 0
        | _ => S754_nan
        end
      else
        let '(q, e2, loc) := SFdiv_core_binary prec emax m 0 (10 ^ (- e10)) 0 in
        binary_round_aux prec emax neg q e2 loc
  | _ => S754_zero neg
  end.

(** Underscores in a float literal, as [_Py_string_to_number_with_underscores]
    checks them over the whole string: each one stands between two digits.
    Returns the string without them. *)
Fixpoint drop_underscores (prev : ascii) (l : list ascii) : option (list ascii) :=
  match l with
  | c :: l' =>
      if Ascii.eqb c "_" then
        if is_digit prev then drop_underscores c l' else None
      else if Ascii.eqb prev "_" && negb (is_digit c) then None
      else option_map (cons c) (drop_underscores c l')
  | [] => if Ascii.eqb prev "_" then None else Some []
  end.

Fixpoint span_digits (l : list ascii) : list ascii * list ascii :=
  match l with
  | c :: l' =>
      if is_digit c then let '(ds, r) := span_digits l' in (c :: ds, r)
      else ([], l)
  | [] => ([], [])
  end.

(** The exponent part of a literal: [e] or [E], an optional sign and at least
    one digit; when that is not what follows, nothing is read. *)
Definition take_exponent (l : list ascii) : Z * list ascii :=
  match l with
  | c :: l' =>
      if Ascii.eqb (lower c) "e" then
        let '(neg, l'') := take_sign l' in
        match span_digits l'' with
        | ([], _) => (0, l)
        | (ds, r) => (if neg then - digits_value ds else digits_value ds, r)
        end
      else (0, l)
  | [] => (0, l)
  end.

(** A decimal literal, as [_Py_dg_strtod] reads it: digits with an optional
    point, at least one digit in all, then an optional exponent. *)
Definition parse_decimal (neg : bool) (l : list ascii) : option (spec_float * list ascii) :=
  let '(ip, r1) := span_digits l in
  let '(fp, r2) :=
    match r1 with
    | "."%char :: r => span_digits r
    | _ => ([], r1)
    end in
  match ip ++ fp with
  | [] => None
  | ds =>
      let '(e, r3) := take_exponent r2 in
      Some (float_of_decimal neg (digits_value ds) (e - Z.of_nat (List.length fp)), r3)
  end.

Fixpoint starts_with_ci (p l : list ascii) : option (list ascii) :=
  match p, l with
  | [], _ => Some l
  | a :: p', c :: l' => if Ascii.eqb a (lower c) then starts_with_ci p' l' else None
  | _ :: _, [] => None
  end.

(** [inf], [infinity] and [nan] in any case, as [_Py_parse_inf_or_nan]. *)
Definition parse_inf_or_nan (neg : bool) (l : list ascii) : option (spec_float * list ascii) :=
  match starts_with_ci (chars "inf") l with
  | Some r =>
      match starts_with_ci (chars "inity") r with
      | Some r' => Some (S754_infinity neg, r')
      | None => Some (S754_infinity neg, r)
      end
  | None =>
      match starts_with_ci (chars "nan") l with
      | Some r => Some (S754_nan, r)
      | None => None
      end
  end.

Definition float_of_str (s : string) : result spec_float :=
  let bad := Raise (value_error "could not convert string to float") in
  let cs := chars s in
  let unscored :=
    if existsb (Ascii.eqb "_") cs then drop_underscores Ascii.zero cs else Some cs in
  match unscored with
  | None => bad
  | Some cs' =>
      let '(neg, body) := take_sign (strip cs') in
      let parsed :=
        match parse_decimal neg body with
        | Some p => Some p
        | None => parse_inf_or_nan neg body
        end in
      match parsed with
      | Some (f, []) => Ret f
      | _ => bad
      end
  end.

Definition py_float (v : pyval) : result spec_float :=
  match v with
  | PFloat f => Ret f
  | PInt z => float_of_int z
  | PBool b => float_of_int (if b then 1 else 0)
  | PStr s => float_of_str s
  | _ => Raise (type_error "float() argument must be a string or a real number")
  end.

End Num.

(** ** [datetime.fromtimestamp(ts, tz=timezone.utc)] and [strftime] *)

Module Datetime.

Import Text.

Record datetime := mkDatetime {
  year : Z; month : Z; day : Z; hour : Z; minute : Z; second : Z
}.

Definition MINYEAR : Z := 1.
Definition MAXYEAR : Z := 9999.

Definition is_leap (y : Z) : bool :=
  (y mod 4 =? 0) && (negb (y mod 100 =? 0) || (y mod 400 =? 0)).

Definition days_in_month (leap : bool) (m : Z) : Z :=
  match m with
  | 1 => 31 | 2 => if leap then 29 else 28 | 3 => 31 | 4 => 30 | 5 => 31
  | 6 => 30 | 7 => 31 | 8 => 31 | 9 => 30 | 10 => 31 | 11 => 30 | 12 => 31
  | _ => 0
  end.

(** Days of the year before the first of month [m]. *)
Definition days_before_month (leap : bool) (m : Z) : Z :=
  let common :=
    match m with
    | 1 => 0 | 2 => 31 | 3 => 59 | 4 => 90 | 5 => 120 | 6 => 151 | 7 => 181
    | 8 => 212 | 9 => 243 | 10 => 273 | 11 => 304 | 12 => 334 | _ => 0
    end in
  if (2 <? m) && leap then common + 1 else common.

(** Days before January 1st of year [y], counted from 0001-01-01. *)
Definition days_before_year (y : Z) : Z :=
  let p := y - 1 in p * 365 + p / 4 - p / 100 + p / 400.

(** The proleptic Gregorian ordinal of a date: 0001-01-01 is day 1. *)
Definition ymd2ord (y m d : Z) : Z :=
  days_before_year y + days_before_month (is_leap y) m + d.

Definition DI400Y : Z := 146097.
Definition DI100Y : Z := 36524.
Definition DI4Y : Z := 1461.

(** Month and day from the zero-based day of the year. *)
Definition month_day (leap : bool) (n : Z) : Z * Z :=
  let m := Z.shiftr (n + 50) 5 in
  let preceding := days_before_month leap m in
  if n <? preceding
  then (m - 1, n - (preceding - days_in_month leap (m - 1)) + 1)
  else (m, n - preceding + 1).

(** The date of an ordinal, after the [_ord2ymd] of the [datetime] module:
    400-year, 100-year and 4-year cycles, then single years. *)
Definition ord2ymd (ordinal : Z) : Z * Z * Z :=
  let n := ordinal - 1 in
  let n400 := n / DI400Y in
  let n := n mod DI400Y in
  let n100 := n / DI100Y in
  let n := n mod DI100Y in
  let n4 := n / DI4Y in
  let n := n mod DI4Y in
  let n1 := n / 365 in
  let n := n mod 365 in
  let y := n400 * 400 + 1 + n100 * 100 + n4 * 4 + n1 in
  if (n1 =? 4) || (n100 =? 4) then (y - 1, 12, 31)
  else
    let leap := (n1 =? 3) && (negb (n4 =? 24) || (n100 =? 3)) in
    let '(m, d) := month_day leap n in
    (y, m, d).

(** The ordinal of 1970-01-01. *)
Definition EPOCH_ORDINAL : Z := 719163.

(** Calendar fields of a count of seconds since the epoch, as [gmtime]
    breaks it down. *)
Definition gmtime (ts : Z) : datetime :=
  let days := ts / 86400 in
  let secs := ts mod 86400 in
  let '(y, m, d) := ord2ymd (days + EPOCH_ORDINAL) in
  mkDatetime y m d (secs / 3600) (secs mod 3600 / 60) (secs mod 60).

(** [datetime.fromtimestamp(ts, tz=timezone.utc)] for an [int]: the count has
    to fit the platform's 64-bit [time_t] and the year has to lie in
    [MINYEAR..MAXYEAR]; the UTC offset is zero. *)
Definition fromtimestamp_utc (ts : Z) : result datetime :=
  if (ts <? - 2 ^ 63) || (2 ^ 63 <=? ts)
  then Raise (mkExn OverflowError "timestamp out of range for platform time_t")
  else
    let dt := gmtime ts in
    if (MINYEAR <=? year dt) && (year dt <=? MAXYEAR) then Ret dt
    else Raise (mkExn ValueError "year is out of range").

(** [dt.strftime("%Y-%m-%d %H:%M:%S")].  The [datetime] documentation gives
    [%Y] as four digits; the C library decides, and CPython before 3.13 on
    glibc writes a year below 1000 without leading zeros ([pad] false). *)
Definition strftime_ymd_hms (pad : bool) (dt : datetime) : string :=
  zero_pad (if pad then 4 else 1) (year dt) +:+ "-" +:+ zero_pad 2 (month dt) +:+ "-" +:+
  zero_pad 2 (day dt) +:+ " " +:+ zero_pad 2 (hour dt) +:+ ":" +:+
  zero_pad 2 (minute dt) +:+ ":" +:+ zero_pad 2 (second dt).

(** The count of seconds of a UTC date and time, as [calendar.timegm]. *)
Definition timegm (dt : datetime) : Z :=
  (ymd2ord (year dt) (month dt) (day dt) - EPOCH_ORDINAL) * 86400
  + hour dt * 3600 + minute dt * 60 + second dt.

(** The first and last counts whose UTC year is in range. *)
Definition MIN_TIMESTAMP : Z := -62135596800.
Definition MAX_TIMESTAMP : Z := 253402300799.

(** The count of 1000-01-01 00:00:00, from which on a year has four digits
    with or without padding. *)
Definition YEAR_1000_TIMESTAMP : Z := -30610224000.

(** The shape [YYYY-MM-DD HH:MM:SS]: nineteen characters, digits except for
    the two dashes, the blank and the two colons. *)
Definition shape_ymd_hms : list (ascii -> bool) :=
  let d := is_digit in
  let lit (a c : ascii) := Ascii.eqb a c in
  [d; d; d; d; lit "-"%char; d; d; lit "-"%char; d; d; lit " "%char;
   d; d; lit ":"%char; d; d; lit ":"%char; d; d].

Fixpoint matches (shape : list (ascii -> bool)) (l : list ascii) : bool :=
  match shape, l with
  | [], [] => true
  | p :: shape', c :: l' => p c && matches shape' l'
  | _, _ => false
  end.

Definition is_ymd_hms (s : string) : bool := matches shape_ymd_hms (chars s).

End Datetime.

(** ** The text of a float *)

(** [repr] of a float: the shortest run of digits that reads back as the same
    binary64 number and, among those, the nearest to it; laid out in fixed
    notation when the decimal point falls within the digits or up to sixteen
    places right or three places left of them, and with an exponent
    otherwise.  It is also what the CSV writer puts in a float cell. *)
Module Repr.

Import Text.

(** [10^k <= n/d] for positive [n] and [d]. *)
Definition ratio_ge_pow10 (n d k : Z) : bool :=
  if 0 <=? k then 10 ^ k * d <=? n else d <=? n * 10 ^ (- k).

Fixpoint lower_until (fuel : nat) (n d k : Z) : Z :=
  match fuel with
  | O => k
  | S fuel' => if ratio_ge_pow10 n d k then k else lower_until fuel' n d (k - 1)
  end.

Fixpoint raise_while (fuel : nat) (n d k : Z) : Z :=
  match fuel with
  | O => k
  | S fuel' => if ratio_ge_pow10 n d (k + 1) then raise_while fuel' n d (k + 1) else k
  end.

(** The [k] with [10^k <= n/d < 10^(k+1)], from an estimate by the binary
    logarithms that is off by at most two. *)
Definition decimal_exponent (n d : Z) : Z :=
  let estimate := (Z.log2 n - Z.log2 d) * 30103 / 100000 in
  raise_while 4 n d (lower_until 4 n d estimate).

Definition same_finite (f : spec_float) (m : positive) (e : Z) : bool :=
  match f with
  | S754_finite false m' e' => (Z.pos m' =? Z.pos m) && (e' =? e)
  | _ => false
  end.

(** The [digits]-digit decimals on either side of [m * 2^e]: the one that
    reads back as [m * 2^e], the nearer one when both do. *)
Definition candidate (m : positive) (e : Z) (n d k digits : Z) : option (Z * Z) :=
  let e10 := k - (digits - 1) in
  let num := if 0 <=? e10 then n else n * 10 ^ (- e10) in
  let den := if 0 <=? e10 then d * 10 ^ e10 else d in
  let lo := num / den in
  let r := num mod den in
  let hi := lo + 1 in
  let back q := same_finite (Num.float_of_decimal false q e10) m e in
  match back lo, back hi with
  | true, true =>
      Some (if 2 * r <? den then lo
            else if den <? 2 * r then hi
            else if Z.even lo then lo else hi, e10)
  | true, false => Some (lo, e10)
  | false, true => Some (hi, e10)
  | false, false => None
  end.

Fixpoint shortest_from (fuel : nat) (m : positive) (e : Z) (n d k digits : Z) : Z * Z :=
  match fuel with
  | O => (n / d, 0)
  | S fuel' =>
      match candidate m e n d k digits with
      | Some c => c
      | None => shortest_from fuel' m e n d k (digits + 1)
      end
  end.

(** Seventeen digits always suffice for binary64. *)
Definition shortest (m : positive) (e : Z) : Z * Z :=
  let n := if 0 <=? e then Z.pos m * 2 ^ e else Z.pos m in
  let d := if 0 <=? e then 1 else 2 ^ (- e) in
  shortest_from 17 m e n d (decimal_exponent n d) 1.

Fixpoint drop_zeros (l : list ascii) : list ascii :=
  match l with
  | "0"%char :: l' => drop_zeros l'
  | _ => l
  end.

Definition layout (q e10 : Z) : list ascii :=
  let all := chars (str_of_int q) in
  let ds := rev (drop_zeros (rev all)) in
  let len := Z.of_nat (List.length ds) in
  let decpt := Z.of_nat (List.length all) + e10 in
  if (decpt <=? -4) || (16 <? decpt) then
    let x := decpt - 1 in
    let mantissa :=
      match ds with
      | c :: rest => match rest with [] => ds | _ => c :: "."%char :: rest end
      | [] => ds
      end in
    mantissa ++ "e"%char :: (if x <? 0 then "-"%char else "+"%char)
             :: chars (zero_pad 2 (Z.abs x))
  else if decpt <=? 0 then
    chars "0." ++ repeat "0"%char (Z.to_nat (- decpt)) ++ ds
  else if len <=? decpt then
    ds ++ repeat "0"%char (Z.to_nat (decpt - len)) ++ chars ".0"
  else
    firstn (Z.to_nat decpt) ds ++ "."%char :: skipn (Z.to_nat decpt) ds.

Definition float_repr (f : spec_float) : string :=
  match f with
  | S754_zero neg => if neg then "-0.0" else "0.0"
  | S754_infinity neg => if neg then "-inf" else "inf"
  | S754_nan => "nan"
  | S754_finite neg m e =>
      let '(q, e10) := shortest m e in
      text ((if neg then ["-"%char] else []) ++ layout q e10)
  end.

End Repr.

(** ** The world: network, file system, logger *)

Inductive level := INFO | WARNING | ERROR.

Inductive log_arg :=
| ArgStr (s : string)
| ArgInt (n : Z)
| ArgVal (v : pyval)
| ArgExn (e : exn).

(** A call [logger.<level>(msg, *args)]. *)
Record log_record := mkLog {
  log_level : level;
  log_msg : string;
  log_args : list log_arg
}.

(** What [requests.get] can fail with; each is a [RequestException]. *)
Inductive net_error := ConnectionFailed | TimedOut | OtherRequestError.

Definition net_error_class (f : net_error) : exn_class :=
  match f with
  | ConnectionFailed => ConnectionError
  | TimedOut => Timeout
  | OtherRequestError => RequestException
  end.

(** The body of a response as [resp.json()] sees it.  A body that parses
    comes with the text that [json.dump(data, f, indent=2)] writes for it,
    which depends on the order of the keys in the body.  A body that does not
    parse raises [requests.JSONDecodeError], or the plain [ValueError] of the
    [json] module with a [requests] before 2.27.  A body that is JSON, but
    nested deeper than the interpreter recurses, raises [RecursionError]: in
    [resp.json()], or, where the parser goes deeper than the encoder, in
    [json.dump], and then after the parsing has given [data] and a part of
    the dump is written. *)
Inductive body :=
| JSON (data : pyval) (dump : string)
| NotJSON (plain_value_error : bool)
| TooDeep (parsed : option (pyval * string)).

(** The text that [json.dump] writes, and whether it gets to its end. *)
Record dumped := mkDumped { written : string; complete : bool }.

Record response := mkResponse { status_code : Z; content : body }.

Inductive network :=
| NetFailure (f : net_error)
| NetResponse (r : response).

Inductive node :=
| File (data : string)
| Directory.

(** The tests that [pandas] runs on a path before it opens it. *)
Module Path.

Import Text.

Definition starts_with_tilde (path : string) : bool :=
  match path with
  | String c _ => Ascii.eqb c "~"%char
  | EmptyString => false
  end.

Definition has_colon (path : string) : bool :=
  existsb (Ascii.eqb ":"%char) (chars path).

Fixpoint starts_with (p l : list ascii) : bool :=
  match p, l with
  | [], _ => true
  | c :: p', d :: l' => Ascii.eqb c d && starts_with p' l'
  | _ :: _, [] => false
  end.

Definition ends_with (suffix s : string) : bool :=
  starts_with (rev (chars suffix)) (rev (chars s)).

(** The extensions from which [to_csv] infers a compression. *)
Definition compression_extensions : list string :=
  [".tar"; ".tar.gz"; ".tar.bz2"; ".tar.xz"; ".gz"; ".bz2"; ".zip"; ".xz"; ".zst"]%string.

Definition compressed (path : string) : bool :=
  existsb (fun ext => ends_with ext (text (map lower (chars path)))) compression_extensions.

(** A path that [pandas] may read otherwise than the operating system does:
    [os.path.expanduser] rewrites a leading tilde, and a path with a scheme
    ("s3://...", "file:...") is a URL; every URL has a colon. *)
Definition special (path : string) : bool := starts_with_tilde path || has_colon path.

(** A path to which [to_csv] appends the text itself, as it is. *)
Definition as_text (path : string) : bool := negb (has_colon path) && negb (compressed path).

(** A path that [to_csv] hands to [open] as it is, to append the text to the
    file that [os.path.exists] looks at. *)
Definition as_given (path : string) : bool := negb (starts_with_tilde path) && as_text path.

End Path.

(** The file with the raw response, in the working directory. *)
Definition SNAPSHOT : string := "iss_raw.json".

(** The file system.  [nodes] holds the files, one entry each, by path: the
    snapshot under [SNAPSHOT], the destination of a run under the path given
    for it, read the way [pandas] reads it -- a leading tilde stands for a
    home directory, a scheme for a store elsewhere.  The operating system
    reads neither: the file that it knows by such a path, in the working
    directory, is the entry of [os_name].  [unwritable] holds the entries
    that cannot be opened for writing (no permission, no parent directory,
    read-only medium).  [rerouted] tells the paths that [pandas] does not
    hand to the operating system as they are: those with a tilde that
    [os.path.expanduser] expands, those that are taken for a URL.
    [same_as_snapshot] tells the paths that are other names of the snapshot
    file: "./iss_raw.json", its absolute path, a link to it, its name in
    other letter case where case is ignored. *)
Record filesystem := mkFs {
  nodes : gmap string node;
  unwritable : gset string;
  rerouted : string -> bool;
  same_as_snapshot : string -> bool
}.

Definition with_nodes (f : filesystem) (n : gmap string node) : filesystem :=
  mkFs n (unwritable f) (rerouted f) (same_as_snapshot f).

(** The entry of the file that a path names. *)
Definition file_key (f : filesystem) (path : string) : string :=
  if same_as_snapshot f path then SNAPSHOT else path.

(** The path, as an entry is named, of the file that the operating system
    opens for [path]: a tilde or a scheme is for it a part of a file name. *)
Definition os_name (f : filesystem) (path : string) : string :=
  if Path.special path && rerouted f path then "./" +:+ path else path.

(** What becomes of a destination that [to_csv] does not write as text -- a
    file that a codec compresses, an archive, a URL that is fetched, an
    object of a remote store --, which is the world's to tell: the URLs
    requested when the path is one, what the file holds afterwards if it is
    written, and the exception if one is raised. *)
Record foreign_write := mkForeign {
  fetched : list string;
  stored : option string;
  failure : option exn
}.

Record world := mkWorld {
  net : network;              (* what the GET meets in the end *)
  redirects : list string;    (* the URLs it is redirected to on the way *)
  sent : list string;         (* the URLs requested so far *)
  fs : filesystem;
  foreign : string -> string -> string -> foreign_write;
                              (* by path, what the file held and the text to
                                 append, see [to_csv] *)
  handlers : nat;             (* handlers on the "iss_etl" logger *)
  log : list log_record;      (* the records logged so far *)
  pads_year : bool            (* whether the C library pads %Y to 4 digits *)
}.

Definition with_log (w : world) (l : list log_record) : world :=
  mkWorld (net w) (redirects w) (sent w) (fs w) (foreign w) (handlers w) l (pads_year w).

Definition with_fs (w : world) (f : filesystem) : world :=
  mkWorld (net w) (redirects w) (sent w) f (foreign w) (handlers w) (log w) (pads_year w).

Definition with_sent (w : world) (s : list string) : world :=
  mkWorld (net w) (redirects w) s (fs w) (foreign w) (handlers w) (log w) (pads_year w).

Definition with_handlers (w : world) (n : nat) : world :=
  mkWorld (net w) (redirects w) (sent w) (fs w) (foreign w) n (log w) (pads_year w).

Definition with_net (w : world) (n : network) : world :=
  mkWorld n (redirects w) (sent w) (fs w) (foreign w) (handlers w) (log w) (pads_year w).

(** ** Computations that read and change the world and may raise *)

Definition M (A : Type) : Type := world -> result A * world.

Definition ret {A} (a : A) : M A := fun w => (Ret a, w).

Definition raise {A} (e : exn) : M A := fun w => (Raise e, w).

Definition bind {A B} (m : M A) (k : A -> M B) : M B :=
  fun w =>
    match m w with
    | (Ret a, w') => k a w'
    | (Raise e, w') => (Raise e, w')
    end.

Definition lift {A} (r : result A) : M A := fun w => (r, w).

Declare Scope py_scope.
Delimit Scope py_scope with py.
Notation "x <- m ;; k" := (bind m (fun x => k))
  (at level 100, m at next level, right associativity) : py_scope.
Notation "m ;;; k" := (bind m (fun _ => k))
  (at level 100, right associativity) : py_scope.
Open Scope py_scope.

(** An [except cls as e:] clause. *)
Definition handler (A : Type) : Type := exn_class * (exn -> M A).

(** [try: body except ...]: the first clause whose class the exception is an
    instance of handles it; with no such clause it goes on to the caller. *)
Definition try_except {A} (body : M A) (clauses : list (handler A)) : M A :=
  fun w =>
    match body w with
    | (Ret a, w') => (Ret a, w')
    | (Raise e, w') =>
        match find (fun h => issubclass (exn_cls e) (fst h)) clauses with
        | Some h => snd h e w'
        | None => (Raise e, w')
        end
    end.

(** *** The logger *)

Definition log_at (l : level) (msg : string) (args : list log_arg) : M unit :=
  fun w => (Ret tt, with_log w (log w ++ [mkLog l msg args])).

Definition logger_info := log_at INFO.
Definition logger_warning := log_at WARNING.
Definition logger_error := log_at ERROR.

(** *** The file system *)

(** [os.path.exists(path)] *)
Definition path_exists (path : string) : M bool :=
  fun w =>
    (Ret (bool_decide (is_Some (nodes (fs w) !! file_key (fs w) (os_name (fs w) path)))), w).

(** Whether the opening, for writing or appending, of the file of the entry
    that [path] names fails. *)
Definition open_error (f : filesystem) (path : string) : option exn :=
  if bool_decide (file_key f path ∈ unwritable f) then Some (mkExn OSError "Permission denied")
  else match nodes f !! file_key f path with
       | Some Directory => Some (mkExn OSError "Is a directory")
       | _ => None
       end.

(** What the file of an entry holds, nothing when there is no such file. *)
Definition file_data (f : filesystem) (path : string) : string :=
  match nodes f !! path with
  | Some (File s) => s
  | _ => ""
  end.

(** [open(path, "w")] followed by the writing of [s]: the file, which the
    operating system finds, is created or emptied first. *)
Definition write_text (path s : string) : M unit :=
  fun w =>
    let name := os_name (fs w) path in
    match open_error (fs w) name with
    | Some e => (Raise e, w)
    | None =>
        (Ret tt,
         with_fs w (with_nodes (fs w) (<[file_key (fs w) name := File s]> (nodes (fs w)))))
    end.

(** *** The network *)

(** [requests.get(url, timeout=10)]: the request, and those to which the
    redirects of the answers lead. *)
Definition requests_get (url : string) : M response :=
  fun w =>
    let w' := with_sent w (sent w ++ url :: redirects w) in
    match net w with
    | NetFailure f => (Raise (mkExn (net_error_class f) "request failed"), w')
    | NetResponse r => (Ret r, w')
    end.

(** The statuses that [raise_for_status] takes for errors: 4xx and 5xx. *)
Definition http_error (r : response) : bool :=
  (400 <=? status_code r) && (status_code r <? 600).

(** [resp.raise_for_status()] *)
Definition raise_for_status (r : response) : M unit :=
  if http_error r then raise (mkExn HTTPError "Client or server error") else ret tt.

(** [resp.json()] together with the text of its dump. *)
Definition response_json (r : response) : M (pyval * dumped) :=
  match content r with
  | JSON data dump => ret (data, mkDumped dump true)
  | NotJSON plain =>
      raise (mkExn (if plain then JSONDecodeError else RequestsJSONDecodeError)
                   "Expecting value")
  | TooDeep None => raise (mkExn RecursionError "maximum recursion depth exceeded")
  | TooDeep (Some (data, part)) => ret (data, mkDumped part false)
  end.

(** [with open(path, "w") as f: json.dump(data, f, indent=2)], for the dump
    of [data]: what was written stays in the file when the encoder gives up. *)
Definition json_dump (path : string) (dump : dumped) : M unit :=
  write_text path (written dump) ;;;
  if complete dump then ret tt
  else raise (mkExn RecursionError "maximum recursion depth exceeded").

(** ** Data frames and their CSV text *)

Inductive cell :=
| CInt (z : Z)
| CStr (s : string)
| CFloat (f : spec_float).

(** A frame: the column labels and the rows, each row one cell per column. *)
Record DataFrame := mkDataFrame {
  columns : list string;
  rows : list (list cell)
}.

(** [pd.DataFrame()] *)
Definition empty_frame : DataFrame := mkDataFrame [] [].

(** [pd.DataFrame([{k1: v1, ...}])]: one row, the columns in the order of the
    keys of the dict. *)
Definition frame_of_record (fields : list (string * cell)) : DataFrame :=
  mkDataFrame (map fst fields) [map snd fields].

(** [df.empty]: some axis has length zero. *)
Definition df_empty (df : DataFrame) : bool :=
  match columns df, rows df with
  | _ :: _, _ :: _ => false
  | _, _ => true
  end.

(** [len(df)] *)
Definition df_len (df : DataFrame) : Z := Z.of_nat (List.length (rows df)).

Module Csv.

Import Text.

Definition LF : ascii := "010"%char.
Definition DQUOTE : ascii := "034"%char.
Definition newline : string := String LF "".

(** Minimal quoting: a field with a comma, a double quote or a line feed is
    put in double quotes, with its double quotes doubled. *)
Definition needs_quotes (s : string) : bool :=
  existsb (fun c => Ascii.eqb c ","%char || Ascii.eqb c DQUOTE || Ascii.eqb c LF) (chars s).

Definition quoted (s : string) : string :=
  text (DQUOTE :: flat_map (fun c => if Ascii.eqb c DQUOTE then [c; c] else [c]) (chars s)
          ++ [DQUOTE]).

Definition field (s : string) : string := if needs_quotes s then quoted s else s.

(** One record: the fields joined by commas and ended by the line
    terminator; a lone empty field is written as a pair of quotes. *)
Definition record (fields : list string) : string :=
  match fields with
  | [""%string] => text [DQUOTE; DQUOTE] +:+ newline
  | _ => join "," (map field fields) +:+ newline
  end.

(** The text of a cell: a missing number (NaN) is the empty string. *)
Definition cell_text (c : cell) : string :=
  match c with
  | CInt z => str_of_int z
  | CStr s => s
  | CFloat S754_nan => ""
  | CFloat f => Repr.float_repr f
  end.

Definition row_text (r : list cell) : string := record (map cell_text r).

Definition header_text (df : DataFrame) : string := record (columns df).

Fixpoint concat (l : list string) : string :=
  match l with
  | [] => ""
  | s :: l' => s +:+ concat l'
  end.

(** The text that [df.to_csv(..., header=header, index=False)] writes. *)
Definition to_text (df : DataFrame) (header : bool) : string :=
  (if header then header_text df else "") +:+ concat (map row_text (rows df)).

End Csv.

(** [df.to_csv(path, mode="a", header=header, index=False)].  The file is
    the one that [pandas] finds for the path, and is created when missing.
    For a path without a colon and without the extension of a compressed
    format, the text is appended as it is.  For any other path, a compression
    is inferred from the extension, or the colon can make it a URL, and what
    happens is [foreign]. *)
Definition to_csv (df : DataFrame) (path : string) (header : bool) : M unit :=
  fun w =>
    let k := file_key (fs w) path in
    let old := file_data (fs w) k in
    let text := Csv.to_text df header in
    let store (w : world) (s : string) : world :=
      with_fs w (with_nodes (fs w) (<[k := File s]> (nodes (fs w)))) in
    match open_error (fs w) path with
    | Some e => (Raise e, w)
    | None =>
        if Path.as_text path then (Ret tt, store w (old +:+ text))
        else
          let o := foreign w path old text in
          let w1 := if Path.has_colon path then with_sent w (sent w ++ fetched o) else w in
          let w2 := match stored o with Some s => store w1 s | None => w1 end in
          (match failure o with Some e => Raise e | None => Ret tt end, w2)
    end.

(** ** The pipeline: [iss.py] *)

(** [init_logger] (iss.py, lines 17-32): a handler is added unless the logger
    has one. *)
Definition init_logger : M unit :=
  fun w => (Ret tt, if Nat.eqb (handlers w) 0 then with_handlers w 1 else w).

Definition ISS_URL : string := "http://api.open-notify.org/iss-now.json".

(** [extract] (iss.py, lines 33-59).  The text of the dump travels with the
    parsed body, see [body]. *)
Definition extract : M pyval :=
  logger_info "Extract: requesting %s" [ArgStr ISS_URL] ;;;
  try_except
    (resp <- requests_get ISS_URL ;;
     raise_for_status resp ;;;
     parsed <- response_json resp ;;
     let '(data, dump) := parsed in
     json_dump SNAPSHOT dump ;;;
     message <- lift (get_method data "message") ;;
     logger_info "Extract: received message=%s" [ArgVal message] ;;;
     ret data)
    [(RequestException,
      fun e => logger_error "Extract: request failed: %s" [ArgExn e] ;;; ret (PDict ∅));
     (ValueError,
      fun e => logger_error "Extract: JSON parse failed: %s" [ArgExn e] ;;; ret (PDict ∅))].

(** [dt_utc.strftime("%Y-%m-%d %H:%M:%S")] on this platform. *)
Definition strftime_ymd_hms (dt : Datetime.datetime) : M string :=
  fun w => (Ret (Datetime.strftime_ymd_hms (pads_year w) dt), w).

(** [transform] (iss.py, lines 61-93). *)
Definition transform (record : pyval) : M DataFrame :=
  logger_info "Transform: converting record to tabular format" [] ;;;
  if negb (truthy record) then
    logger_warning "Transform: empty record; returning empty DataFrame" [] ;;;
    ret empty_frame
  else
    try_except
      (ts <- lift (and_then (getitem record "timestamp") Num.py_int) ;;
       pos <- lift (getitem record "iss_position") ;;
       lat <- lift (and_then (getitem pos "latitude") Num.py_float) ;;
       lon <- lift (and_then (getitem pos "longitude") Num.py_float) ;;
       dt_utc <- lift (Datetime.fromtimestamp_utc ts) ;;
       ts_str <- strftime_ymd_hms dt_utc ;;
       let df := frame_of_record
                   [("timestamp_unix", CInt ts);
                    ("timestamp_utc", CStr ts_str);
                    ("latitude", CFloat lat);
                    ("longitude", CFloat lon)] in
       logger_info "Transform: produced 1 row" [] ;;;
       ret df)
      [(Exception,
        fun e => logger_error "Transform: failed: %s" [ArgExn e] ;;; ret empty_frame)].

(** [load] (iss.py, lines 94-108); [None] for [df] is Python's [None]. *)
Definition load (df : option DataFrame) (csv_file : string) : M unit :=
  match df with
  | Some d =>
      if df_empty d then
        logger_warning "Load: nothing to write (empty DataFrame)" []
      else
        try_except
          (file_exists <- path_exists csv_file ;;
           to_csv d csv_file (negb file_exists) ;;;
           logger_info "Load: appended %d row(s) to %s" [ArgInt (df_len d); ArgStr csv_file])
          [(Exception, fun e => logger_error "Load: failed: %s" [ArgExn e])]
  | None => logger_warning "Load: nothing to write (empty DataFrame)" []
  end.

(** [main] (iss.py, lines 111-130), with [sys.argv] as its argument. *)
Definition main (argv : list string) : M Z :=
  init_logger ;;;
  if negb (Nat.eqb (List.length argv) 2) then
    logger_error "Usage: python3 iss.py <output_csv_file>" [] ;;;
    ret 2
  else
    let csv_file := nth 1 argv ""%string in
    logger_info "Starting ISS ETL; output=%s" [ArgStr csv_file] ;;;
    record <- extract ;;
    df <- transform record ;;
    load (Some df) csv_file ;;;
    logger_info "Done." [] ;;;
    ret 0.

(** [raise SystemExit(main())]: the exit status of the process is what [main]
    returns, and 1 when an exception leaves [main]. *)
Definition exit_status (argv : list string) (w : world) : Z * world :=
  match main argv w with
  | (Ret code, w') => (code, w')
  | (Raise _, w') => (1, w')
  end.

(** ** Notions that the statements about the pipeline use *)

(** The columns of the frame that [transform] builds, in the order of the
    keys of its dict, and the header line that [to_csv] writes for them. *)
Definition SCHEMA : list string :=
  ["timestamp_unix"; "timestamp_utc"; "latitude"; "longitude"]%string.

Definition HEADER_LINE : string :=
  "timestamp_unix,timestamp_utc,latitude,longitude" +:+ Csv.newline.

Definition normalized_row (ts : Z) (utc : string) (lat lon : spec_float) : list cell :=
  [CInt ts; CStr utc; CFloat lat; CFloat lon].

(** The three fields of a raw record, each read and coerced on its own:
    [int(record["timestamp"])], [float(record["iss_position"]["latitude"])]
    and [float(record["iss_position"]["longitude"])].  A field that is
    missing or cannot be coerced is one whose reading raises. *)
Definition field_timestamp (record : pyval) : result Z :=
  and_then (getitem record "timestamp") Num.py_int.

Definition field_latitude (record : pyval) : result spec_float :=
  and_then (getitem record "iss_position")
    (fun pos => and_then (getitem pos "latitude") Num.py_float).

Definition field_longitude (record : pyval) : result spec_float :=
  and_then (getitem record "iss_position")
    (fun pos => and_then (getitem pos "longitude") Num.py_float).

(** The failures of an extraction: no response (connection error, timeout),
    a response with an error status, or a body that is not JSON. *)
Definition extraction_fails (n : network) : bool :=
  match n with
  | NetFailure _ => true
  | NetResponse r =>
      http_error r || match content r with NotJSON _ => true | _ => false end
  end.

(** The worlds and log records that the stages leave behind. *)

(** The file system after [df.to_csv(path, mode="a", header=not exists)],
    for a path that is handed to [open] as it is. *)
Definition appended (d : DataFrame) (path : string) (w : world) : filesystem :=
  let k := file_key (fs w) path in
  with_nodes (fs w)
    (<[k := File (file_data (fs w) k +:+
                  Csv.to_text d (negb (bool_decide (is_Some (nodes (fs w) !! k)))))]>
       (nodes (fs w))).

(** The log once [transform] has announced itself. *)
Definition transform_started (w : world) : list log_record :=
  log w ++ [mkLog INFO "Transform: converting record to tabular format" []].

(** The world once [extract] has announced itself and sent its request. *)
Definition requested (w : world) : world :=
  with_sent (with_log w (log w ++ [mkLog INFO "Extract: requesting %s" [ArgStr ISS_URL]]))
            (sent w ++ ISS_URL :: redirects w).

(** The answer of an [except] clause of [extract]. *)
Definition extract_failed (w : world) (msg : string) (e : exn) : result pyval * world :=
  (Ret (PDict ∅),
   with_log (requested w) (log (requested w) ++ [mkLog ERROR msg [ArgExn e]])).

(** The world once [extract] has written the snapshot. *)
Definition snapshot_written (w : world) (dump : string) : world :=
  with_fs (requested w) (with_nodes (fs w) (<[SNAPSHOT := File dump]> (nodes (fs w)))).

(** The world in which [main], given one argument, calls [extract]. *)
Definition main_started (path : string) (w : world) : world :=
  let w0 := if Nat.eqb (handlers w) 0 then with_handlers w 1 else w in
  with_log w0 (log w0 ++ [mkLog INFO "Starting ISS ETL; output=%s" [ArgStr path]]).

(** The body of the [try] block of [transform] up to the building of the
    frame, as one expression. *)
Definition conversion (record : pyval)
  : result (Z * spec_float * spec_float * Datetime.datetime) :=
  and_then (and_then (getitem record "timestamp") Num.py_int) (fun ts =>
  and_then (getitem record "iss_position") (fun pos =>
  and_then (and_then (getitem pos "latitude") Num.py_float) (fun lat =>
  and_then (and_then (getitem pos "longitude") Num.py_float) (fun lon =>
  and_then (Datetime.fromtimestamp_utc ts) (fun dt =>
  Ret (ts, lat, lon, dt)))))).

(** A log as [load] keeps it: the header line, then one line per row. *)
Definition csv_log (rs : list (list cell)) : string :=
  HEADER_LINE +:+ Csv.concat (map Csv.row_text rs).

(** The destination holds the log of the rows [rs]: it is not there when no
    row was ever written, and holds the header line and their lines otherwise. *)
Definition holds_log (f : filesystem) (path : string) (rs : list (list cell)) : Prop :=
  nodes f !! path = match rs with [] => None | _ => Some (File (csv_log rs)) end.

(** The lines of a text: the pieces that a line feed ends, and what follows
    the last line feed when that is not empty. *)
Fixpoint lines_from (current : list ascii) (l : list ascii) : list string :=
  match l with
  | [] => match current with [] => [] | _ => [Text.text (rev current)] end
  | c :: l' =>
      if Ascii.eqb c Csv.LF then Text.text (rev current) :: lines_from [] l'
      else lines_from (c :: current) l'
  end.

Definition lines (s : string) : list string := lines_from [] (Text.chars s).

Definition is_header (line : string) : bool :=
  String.eqb line "timestamp_unix,timestamp_utc,latitude,longitude".

Definition header_lines (s : string) : nat :=
  List.length (List.filter is_header (lines s)).

Definition data_lines (s : string) : nat :=
  List.length (List.filter (fun l => negb (is_header l)) (lines s)).

(** A character that a CSV field can hold without quotes and that does not
    end a line. *)
Definition plain (c : ascii) : bool :=
  negb (Ascii.eqb c ","%char) && negb (Ascii.eqb c Csv.DQUOTE) && negb (Ascii.eqb c Csv.LF).

Definition all_plain (l : list ascii) : Prop := forall c, In c l -> plain c = true.

(** A row as [transform] builds it: the four cells of the schema, the second
    one a text that needs no quotes, as the texts of [strftime] are. *)
Definition well_formed_row (r : list cell) : Prop :=
  exists ts utc lat lon,
    r = normalized_row ts utc lat lon /\ all_plain (Text.chars utc).

(** A line of data: a text without line feed that is not the header. *)
Definition data_line (l : string) : Prop :=
  (forall c, In c (Text.chars l) -> c <> Csv.LF) /\ is_header l = false.

(** Checks that the proofs run over whole ranges of days and field values. *)
Definition month_day_ok (leap : bool) (n : Z) : bool :=
  let '(m, d) := Datetime.month_day leap n in
  (1 <=? m) && (m <=? 12) && (1 <=? d) && (d <=? Datetime.days_in_month leap m)
  && (Datetime.days_before_month leap m + d =? n + 1).

Definition all_digits (k : nat) (s : string) : bool :=
  Nat.eqb (List.length (Text.chars s)) k && forallb Text.is_digit (Text.chars s).

(** ** Sample runs *)

Module Sample.

(** A machine with an empty directory and a reachable service. *)
Definition iss_body : pyval :=
  PDict {[ "message" := PStr "success";
           "timestamp" := PInt 1700000000;
           "iss_position" := PDict {[ "latitude" := PStr "10.5";
                                      "longitude" := PStr "-20.25" ]} ]}.

Definition quote (s : string) : string :=
  String Csv.DQUOTE (s +:+ String Csv.DQUOTE "").

Definition iss_dump : string :=
  Csv.concat
    ["{"; Csv.newline;
     "  "; quote "message"; ": "; quote "success"; ","; Csv.newline;
     "  "; quote "timestamp"; ": 1700000000,"; Csv.newline;
     "  "; quote "iss_position"; ": {"; Csv.newline;
     "    "; quote "latitude"; ": "; quote "10.5"; ","; Csv.newline;
     "    "; quote "longitude"; ": "; quote "-20.25"; Csv.newline;
     "  }"; Csv.newline;
     "}"]%string.

Definition service : network :=
  NetResponse (mkResponse 200 (JSON iss_body iss_dump)).

(** A working directory without entries, in which every path is read as it
    is and names a file of its own. *)
Definition empty_directory : filesystem := mkFs ∅ ∅ (fun _ => false) (fun _ => false).

(** No codec and no store: only text can be written. *)
Definition text_only (path old text : string) : foreign_write :=
  mkForeign [] None (Some (mkExn OSError "not supported")).

Definition world0 : world :=
  mkWorld service [] [] empty_directory text_only 0 [] true.

(** The same machine with a working directory that cannot be written. *)
Definition read_only_world : world :=
  with_fs world0 (mkFs ∅ {[ SNAPSHOT ]} (fun _ => false) (fun _ => false)).

(** The same machine when the service answers with a JSON array. *)
Definition array_world : world :=
  with_net world0 (NetResponse (mkResponse 200 (JSON (PList []) "[]"))).

(** A machine on which the destination exists and is empty. *)
Definition touched_world : world :=
  with_fs world0
    (mkFs {[ "iss.csv"%string := File "" ]} ∅ (fun _ => false) (fun _ => false)).

(** The record of the end-to-end example. *)
Definition record : pyval :=
  PDict {[ "timestamp" := PInt 1700000000;
           "iss_position" := PDict {[ "latitude" := PStr "10.5";
                                      "longitude" := PStr "-20.25" ]} ]}.

(** The binary64 numbers 10.5 = 5910974510923776 * 2^-49 and
    -20.25 = -5699868278390784 * 2^-48. *)
Definition lat : spec_float := S754_finite false 5910974510923776 (-49).
Definition lon : spec_float := S754_finite true 5699868278390784 (-48).

Definition row : list cell :=
  [CInt 1700000000; CStr "2023-11-14 22:13:20"; CFloat lat; CFloat lon].

Definition frame : DataFrame := mkDataFrame SCHEMA [row].

(** A reading stamped in milliseconds. *)
Definition record_in_milliseconds : pyval :=
  PDict {[ "timestamp" := PInt 1700000000000;
           "iss_position" := PDict {[ "latitude" := PStr "10.5";
                                      "longitude" := PStr "-20.25" ]} ]}.

Definition ROW_LINE : string :=
  "1700000000,2023-11-14 22:13:20,10.5,-20.25" +:+ Csv.newline.

(** The same machine when [./iss_raw.json] is given as another name of the
    snapshot file. *)
Definition dotted_world : world :=
  with_fs world0 (mkFs ∅ ∅ (fun _ => false) (String.eqb "./iss_raw.json")).

(** The same machine when the service has moved to HTTPS and redirects. *)
Definition HTTPS_URL : string := "https://api.open-notify.org/iss-now.json".

Definition redirected_world : world :=
  mkWorld service [HTTPS_URL] [] empty_directory text_only 0 [] true.

(** A machine on which the file [iss.csv] of the home directory holds the
    header line and one row, and every tilde is expanded. *)
Definition home_world : world :=
  with_fs world0
    (mkFs {[ "~/iss.csv"%string := File (csv_log [row]) ]} ∅
          Path.starts_with_tilde (fun _ => false)).

End Sample.

(** * The run-time model, tried on sample values *)

Example str_of_int_samples :
  Text.str_of_int 1700000000 = "1700000000" /\ Text.str_of_int 0 = "0" /\
  Text.str_of_int (-62135596800) = "-62135596800" /\
  Text.zero_pad 2 7 = "07" /\ Text.zero_pad 4 2023 = "2023" /\
  Text.zero_pad 4 1 = "0001".
Proof. repeat split; reflexivity. Qed.

Example request_exceptions_are_not_value_errors :
  issubclass HTTPError RequestException = true /\
  issubclass Timeout ValueError = false /\
  issubclass RequestsJSONDecodeError RequestException = true /\
  issubclass RequestsJSONDecodeError ValueError = true /\
  issubclass OSError RequestException = false /\
  issubclass OSError ValueError = false /\
  issubclass AttributeError RequestException = false /\
  issubclass AttributeError ValueError = false.
Proof. repeat split; reflexivity. Qed.

Example int_of_str_samples :
  Num.int_of_str "1700000000" = Ret 1700000000 /\
  Num.int_of_str "  -1_000 " = Ret (-1000) /\
  Num.int_of_str "+007" = Ret 7 /\
  returns (Num.int_of_str "") = false /\
  returns (Num.int_of_str "1__0") = false /\
  returns (Num.int_of_str "_1") = false /\
  returns (Num.int_of_str "1_") = false /\
  returns (Num.int_of_str "- 1") = false /\
  returns (Num.int_of_str "12a") = false /\
  returns (Num.int_of_str "1.5") = false /\
  returns (Num.int_of_str "0x10") = false.
Proof. repeat split; vm_compute; reflexivity. Qed.

Example int_of_float_samples :
  Num.int_of_float (Prim2SF 1700000000.75%float) = Ret 1700000000 /\
  Num.int_of_float (Prim2SF (-2.5)%float) = Ret (-2) /\
  Num.int_of_float (Prim2SF 1e20%float) = Ret 100000000000000000000 /\
  returns (Num.int_of_float (Prim2SF nan)) = false /\
  returns (Num.int_of_float (Prim2SF infinity)) = false.
Proof. repeat split; vm_compute; reflexivity. Qed.

(** The conversion of decimal literals agrees with the kernel's reading of
    the same literals as binary64 numbers, also at the edges of the format. *)
Example float_of_str_samples :
  Num.float_of_str "10.5" = Ret (Prim2SF 10.5%float) /\
  Num.float_of_str "-20.25" = Ret (Prim2SF (-20.25)%float) /\
  Num.float_of_str "0.1" = Ret (Prim2SF 0.1%float) /\
  Num.float_of_str " 1_0.5e0 " = Ret (Prim2SF 10.5%float) /\
  Num.float_of_str ".5" = Ret (Prim2SF 0.5%float) /\
  Num.float_of_str "1." = Ret (Prim2SF 1%float) /\
  Num.float_of_str "-0.0" = Ret (Prim2SF (-0)%float) /\
  Num.float_of_str "123456789.123456789" = Ret (Prim2SF 123456789.123456789%float) /\
  Num.float_of_str "9007199254740993" = Ret (Prim2SF 9007199254740992%float) /\
  Num.float_of_str "1.7976931348623157e308" = Ret (Prim2SF 1.7976931348623157e308%float) /\
  Num.float_of_str "2.2250738585072014e-308" = Ret (Prim2SF 2.2250738585072014e-308%float) /\
  Num.float_of_str "5e-324" = Ret (Prim2SF 5e-324%float) /\
  Num.float_of_str "2.4703282292062327e-324" = Ret (Prim2SF 0%float) /\
  Num.float_of_str "2.4703282292062328e-324" = Ret (Prim2SF 5e-324%float) /\
  Num.float_of_str "1e-400" = Ret (Prim2SF 0%float) /\
  Num.float_of_str "1e309" = Ret (Prim2SF infinity) /\
  Num.float_of_str "-Infinity" = Ret (Prim2SF neg_infinity) /\
  Num.float_of_str "NaN" = Ret (Prim2SF nan) /\
  returns (Num.float_of_str "") = false /\
  returns (Num.float_of_str ".") = false /\
  returns (Num.float_of_str "1e") = false /\
  returns (Num.float_of_str "1_.5") = false /\
  returns (Num.float_of_str "ten") = false /\
  returns (Num.float_of_str "0x1p3") = false /\
  returns (Num.float_of_str "1,5") = false.
Proof. repeat split; vm_compute; reflexivity. Qed.

Example float_of_int_samples :
  Num.float_of_int 3 = Ret (Prim2SF 3%float) /\
  Num.float_of_int (-9007199254740993) = Ret (Prim2SF (-9007199254740992)%float) /\
  returns (Num.float_of_int (2 ^ 1024)) = false /\
  returns (Num.float_of_int (2 ^ 1024 - 2 ^ 970 - 1)) = true.
Proof. repeat split; vm_compute; reflexivity. Qed.

Example gmtime_samples :
  Datetime.strftime_ymd_hms true (Datetime.gmtime 1700000000) = "2023-11-14 22:13:20" /\
  Datetime.strftime_ymd_hms true (Datetime.gmtime 0) = "1970-01-01 00:00:00" /\
  Datetime.strftime_ymd_hms true (Datetime.gmtime (-1)) = "1969-12-31 23:59:59" /\
  Datetime.strftime_ymd_hms true (Datetime.gmtime 951782400) = "2000-02-29 00:00:00" /\
  Datetime.strftime_ymd_hms true (Datetime.gmtime 4107542399) = "2100-02-28 23:59:59" /\
  Datetime.strftime_ymd_hms true (Datetime.gmtime 4107542400) = "2100-03-01 00:00:00" /\
  Datetime.strftime_ymd_hms true (Datetime.gmtime 1735689599) = "2024-12-31 23:59:59" /\
  Datetime.strftime_ymd_hms true (Datetime.gmtime Datetime.MIN_TIMESTAMP) = "0001-01-01 00:00:00" /\
  Datetime.strftime_ymd_hms true (Datetime.gmtime Datetime.MAX_TIMESTAMP) = "9999-12-31 23:59:59" /\
  Datetime.strftime_ymd_hms false (Datetime.gmtime Datetime.MIN_TIMESTAMP) = "1-01-01 00:00:00" /\
  Datetime.strftime_ymd_hms false (Datetime.gmtime 1700000000) = "2023-11-14 22:13:20" /\
  returns (Datetime.fromtimestamp_utc (Datetime.MIN_TIMESTAMP - 1)) = false /\
  returns (Datetime.fromtimestamp_utc (Datetime.MAX_TIMESTAMP + 1)) = false /\
  returns (Datetime.fromtimestamp_utc 1000000000000) = false /\
  Datetime.is_ymd_hms "2023-11-14 22:13:20" = true /\
  Datetime.is_ymd_hms "2023-11-14T22:13:20" = false.
Proof. repeat split; vm_compute; reflexivity. Qed.

Example float_repr_samples :
  map (fun x => Repr.float_repr (Prim2SF x))
    [10.5; -20.25; 0.1; 1e16; 1e15; 123456789012345678; 0.0001; 0.00001;
     1.5e-7; 5e-324; 1.7976931348623157e308; 0; -0; 1e22; 1e23;
     9007199254740993; 0.30000000000000004; 100; 1234.5e10;
     9223372036854775808; 4.35; 0.3333333333333333; infinity]%float
  = ["10.5"; "-20.25"; "0.1"; "1e+16"; "1000000000000000.0";
     "1.2345678901234568e+17"; "0.0001"; "1e-05"; "1.5e-07"; "5e-324";
     "1.7976931348623157e+308"; "0.0"; "-0.0"; "1e+22"; "1e+23";
     "9007199254740992.0"; "0.30000000000000004"; "100.0"; "12345000000000.0";
     "9.223372036854776e+18"; "4.35"; "0.3333333333333333"; "inf"].
Proof. vm_compute. reflexivity. Qed.

Example sample_coordinates :
  Sample.lat = Prim2SF 10.5%float /\ Sample.lon = Prim2SF (-20.25)%float /\
  Repr.float_repr Sample.lat = "10.5" /\ Repr.float_repr Sample.lon = "-20.25".
Proof. vm_compute. repeat split; reflexivity. Qed.

Example transform_sample :
  fst (transform Sample.record Sample.world0) = Ret Sample.frame.
Proof. vm_compute. reflexivity. Qed.

Example load_sample :
  let w := snd (load (Some Sample.frame) "iss.csv" Sample.world0) in
  file_data (fs w) "iss.csv" = HEADER_LINE +:+ Sample.ROW_LINE.
Proof. vm_compute. reflexivity. Qed.

Example main_sample :
  let '(code, w) := exit_status ["iss.py"; "iss.csv"]%string Sample.world0 in
  code = 0 /\
  file_data (fs w) "iss.csv" = HEADER_LINE +:+ Sample.ROW_LINE /\
  file_data (fs w) SNAPSHOT = Sample.iss_dump /\
  sent w = [ISS_URL] /\
  map log_msg (log w) =
    ["Starting ISS ETL; output=%s"; "Extract: requesting %s";
     "Extract: received message=%s";
     "Transform: converting record to tabular format"; "Transform: produced 1 row";
     "Load: appended %d row(s) to %s"; "Done."]%string.
Proof. vm_compute. repeat split; reflexivity. Qed.

Example path_samples :
  let paths := ["iss.csv"; "/var/log/iss.csv"; "./iss_raw.json"; "~/iss.csv"; "iss.csv.gz";
                "ISS.CSV.GZ"; "iss.tar.bz2"; "iss.zip"; "s3://bucket/iss.csv"]%string in
  map Path.as_given paths = [true; true; true; false; false; false; false; false; false] /\
  map Path.as_text paths = [true; true; true; true; false; false; false; false; false] /\
  map Path.compressed paths = [false; false; false; false; true; true; true; true; false].
Proof. vm_compute. repeat split; reflexivity. Qed.

(** The destination under another name of the snapshot file: one file. *)
Example main_dotted_sample :
  let '(code, w) := exit_status ["iss.py"; "./iss_raw.json"]%string Sample.dotted_world in
  code = 0 /\
  file_data (fs w) SNAPSHOT = Sample.iss_dump +:+ Sample.ROW_LINE /\
  nodes (fs w) !! "./iss_raw.json"%string = None.
Proof. vm_compute. repeat split; reflexivity. Qed.

Example main_redirected_sample :
  let '(code, w) := exit_status ["iss.py"; "iss.csv"]%string Sample.redirected_world in
  code = 0 /\ sent w = [ISS_URL; Sample.HTTPS_URL].
Proof. vm_compute. repeat split; reflexivity. Qed.

(** A destination with the extension of a compressed format is not written
    as text: what becomes of it is the codec's, here one that fails. *)
Example load_compressed_sample :
  let w := snd (load (Some Sample.frame) "iss.csv.gz" Sample.world0) in
  nodes (fs w) !! "iss.csv.gz"%string = None /\
  log w = [mkLog ERROR "Load: failed: %s" [ArgExn (mkExn OSError "not supported")]].
Proof. vm_compute. repeat split; reflexivity. Qed.

Example extract_too_deep_sample :
  fst (extract (with_net Sample.world0 (NetResponse (mkResponse 200 (TooDeep None))))) =
    Raise (mkExn RecursionError "maximum recursion depth exceeded").
Proof. vm_compute. reflexivity. Qed.

(** * Facts about the run time *)

(** An [except Exception] clause catches every exception of the model. *)
Lemma every_class_is_an_Exception (c : exn_class) : issubclass c Exception = true.
Proof. destruct c; reflexivity. Qed.

Module DatetimeFacts.

Import Text Datetime.

Lemma forallb_range (P : Z -> bool) (lo len : Z) :
  forallb P (map (fun i => lo + Z.of_nat i) (seq 0 (Z.to_nat len))) = true ->
  forall n, lo <= n < lo + len -> P n = true.
Proof.
  intros H n Hn. rewrite forallb_forall in H. apply H.
  apply in_map_iff. exists (Z.to_nat (n - lo)). split; [lia|].
  apply in_seq. lia.
Qed.

Lemma month_day_spec (leap : bool) (n : Z) :
  0 <= n < (if leap then 366 else 365) -> month_day_ok leap n = true.
Proof.
  intros Hn. destruct leap.
  - apply (forallb_range (month_day_ok true) 0 366); [vm_compute; reflexivity | lia].
  - apply (forallb_range (month_day_ok false) 0 365); [vm_compute; reflexivity | lia].
Qed.

Lemma ord2ymd_year (ordinal : Z) :
  let '(y, m, d) := ord2ymd ordinal in
  (1 <= ordinal <= 3652059 <-> 1 <= y <= 9999).
Proof.
  unfold ord2ymd, DI400Y, DI100Y, DI4Y.
  set (n := ordinal - 1).
  destruct ((n mod 146097 mod 36524 mod 1461 / 365 =? 4) || (n mod 146097 / 36524 =? 4)) eqn:E.
  - apply orb_true_iff in E. rewrite !Z.eqb_eq in E. subst n.
    Z.to_euclidean_division_equations. lia.
  - apply orb_false_iff in E. rewrite !Z.eqb_neq in E.
    destruct (month_day _ _) as [m d]. subst n.
    Z.to_euclidean_division_equations. lia.
Qed.

Lemma is_leap_true (y : Z) :
  y mod 4 = 0 -> (y mod 100 <> 0 \/ y mod 400 = 0) -> is_leap y = true.
Proof.
  intros H4 H. unfold is_leap. apply andb_true_iff. split; [by apply Z.eqb_eq|].
  apply orb_true_iff. destruct H as [H|H].
  - left. apply negb_true_iff. by apply Z.eqb_neq.
  - right. by apply Z.eqb_eq.
Qed.

Lemma is_leap_false (y : Z) :
  (y mod 4 <> 0 \/ (y mod 100 = 0 /\ y mod 400 <> 0)) -> is_leap y = false.
Proof.
  intros H. unfold is_leap. apply andb_false_iff. destruct H as [H|[H1 H2]].
  - left. by apply Z.eqb_neq.
  - right. apply orb_false_iff. split.
    + apply negb_false_iff. by apply Z.eqb_eq.
    + by apply Z.eqb_neq.
Qed.

(** [ord2ymd] inverts [ymd2ord]. *)
Lemma ymd2ord_ord2ymd (ordinal : Z) :
  let '(y, m, d) := ord2ymd ordinal in ymd2ord y m d = ordinal.
Proof.
  unfold ord2ymd, ymd2ord, days_before_year, DI400Y, DI100Y, DI4Y.
  set (n := ordinal - 1).
  set (n400 := n / 146097). set (r400 := n mod 146097).
  set (n100 := r400 / 36524). set (r100 := r400 mod 36524).
  set (n4 := r100 / 1461). set (r4 := r100 mod 1461).
  set (n1 := r4 / 365). set (k := r4 mod 365).
  set (y := n400 * 400 + 1 + n100 * 100 + n4 * 4 + n1).
  assert (Hn : n = n400 * 146097 + r400 /\ 0 <= r400 < 146097)
    by (subst n400 r400; Z.to_euclidean_division_equations; lia).
  assert (H100 : r400 = n100 * 36524 + r100 /\ 0 <= r100 < 36524 /\ 0 <= n100 <= 4)
    by (subst n100 r100; Z.to_euclidean_division_equations; lia).
  assert (H4 : r100 = n4 * 1461 + r4 /\ 0 <= r4 < 1461 /\ 0 <= n4 <= 24)
    by (subst n4 r4; Z.to_euclidean_division_equations; lia).
  assert (H1 : r4 = n1 * 365 + k /\ 0 <= k < 365 /\ 0 <= n1 <= 4)
    by (subst n1 k; Z.to_euclidean_division_equations; lia).
  clearbody n400 r400 n100 r100 n4 r4 n1 k.
  destruct ((n1 =? 4) || (n100 =? 4)) eqn:E.
  - apply orb_true_iff in E. rewrite !Z.eqb_eq in E.
    assert (Hleap : is_leap (y - 1) = true).
    { apply is_leap_true; subst y; Z.to_euclidean_division_equations; lia. }
    rewrite Hleap. cbn. subst y n. Z.to_euclidean_division_equations. lia.
  - apply orb_false_iff in E. rewrite !Z.eqb_neq in E.
    set (leap := (n1 =? 3) && (negb (n4 =? 24) || (n100 =? 3))).
    assert (Hleap : is_leap y = leap).
    { subst leap. destruct (n1 =? 3) eqn:E1.
      - apply Z.eqb_eq in E1. destruct (n4 =? 24) eqn:E4.
        + apply Z.eqb_eq in E4. destruct (n100 =? 3) eqn:E100.
          * apply Z.eqb_eq in E100. apply is_leap_true; subst y;
              Z.to_euclidean_division_equations; lia.
          * apply Z.eqb_neq in E100. apply is_leap_false; subst y;
              Z.to_euclidean_division_equations; lia.
        + apply Z.eqb_neq in E4. apply is_leap_true; subst y;
            Z.to_euclidean_division_equations; lia.
      - apply Z.eqb_neq in E1. apply is_leap_false; subst y;
          Z.to_euclidean_division_equations; lia. }
    rewrite <- Hleap.
    pose proof (month_day_spec (is_leap y) k) as Hok.
    unfold month_day_ok in Hok.
    destruct (month_day (is_leap y) k) as [m d].
    assert (Hmd : days_before_month (is_leap y) m + d = k + 1).
    { destruct (is_leap y); (lapply Hok; [|lia]); intros Hb;
        rewrite !andb_true_iff, Z.eqb_eq in Hb; tauto. }
    subst y n. Z.to_euclidean_division_equations. lia.
Qed.

Lemma days_in_month_le (leap : bool) (m : Z) : days_in_month leap m <= 31.
Proof.
  unfold days_in_month.
  repeat match goal with
         | |- context [match ?p with _ => _ end] => destruct p
         end; lia.
Qed.

Lemma gmtime_fields (ts : Z) :
  MIN_TIMESTAMP <= ts <= MAX_TIMESTAMP ->
  let dt := gmtime ts in
  1 <= year dt <= 9999 /\ 1 <= month dt <= 12 /\ 1 <= day dt <= 31 /\
  0 <= hour dt <= 23 /\ 0 <= minute dt <= 59 /\ 0 <= second dt <= 59.
Proof.
  intros Hts. unfold gmtime.
  assert (Hord : 1 <= ts / 86400 + EPOCH_ORDINAL <= 3652059).
  { unfold MIN_TIMESTAMP, MAX_TIMESTAMP, EPOCH_ORDINAL in *.
    Z.to_euclidean_division_equations. lia. }
  pose proof (ord2ymd_year (ts / 86400 + EPOCH_ORDINAL)) as Hy.
  assert (Hmd : let '(_, m, d) := ord2ymd (ts / 86400 + EPOCH_ORDINAL) in
                1 <= m <= 12 /\ 1 <= d <= 31).
  { unfold ord2ymd. set (n := ts / 86400 + EPOCH_ORDINAL - 1).
    destruct (_ || _); [lia|].
    set (leap := (_ && _)).
    set (k := n mod DI400Y mod DI100Y mod DI4Y mod 365).
    assert (Hk : 0 <= k < 365) by (subst k; apply Z.mod_pos_bound; lia).
    pose proof (month_day_spec leap k) as Hok.
    unfold month_day_ok in Hok. destruct (month_day leap k) as [m d].
    assert (Hd : days_in_month leap m <= 31).
    { apply days_in_month_le. }
    destruct leap; (lapply Hok; [|lia]); intros Hb;
      rewrite !andb_true_iff, !Z.leb_le in Hb; lia. }
  destruct (ord2ymd (ts / 86400 + EPOCH_ORDINAL)) as [[y m] d]. simpl.
  repeat split; try lia; Z.to_euclidean_division_equations; lia.
Qed.

Lemma fromtimestamp_utc_in_range (ts : Z) :
  MIN_TIMESTAMP <= ts <= MAX_TIMESTAMP -> fromtimestamp_utc ts = Ret (gmtime ts).
Proof.
  intros Hts. pose proof (gmtime_fields ts Hts) as (Hy & _).
  unfold fromtimestamp_utc, MINYEAR, MAXYEAR.
  unfold MIN_TIMESTAMP, MAX_TIMESTAMP in Hts.
  destruct (ts <? - 2 ^ 63) eqn:E1; [apply Z.ltb_lt in E1; lia|].
  destruct (2 ^ 63 <=? ts) eqn:E2; [apply Z.leb_le in E2; lia|].
  simpl orb. cbv iota.
  destruct (1 <=? year (gmtime ts)) eqn:E3; [|apply Z.leb_gt in E3; lia].
  destruct (year (gmtime ts) <=? 9999) eqn:E4; [|apply Z.leb_gt in E4; lia].
  reflexivity.
Qed.

Lemma fromtimestamp_utc_out_of_range (ts : Z) :
  ~ (MIN_TIMESTAMP <= ts <= MAX_TIMESTAMP) -> returns (fromtimestamp_utc ts) = false.
Proof.
  intros Hts. unfold fromtimestamp_utc, MINYEAR, MAXYEAR.
  destruct (_ || _); [reflexivity|].
  destruct (_ && _) eqn:E; [|reflexivity]. exfalso. apply Hts.
  apply andb_true_iff in E. rewrite !Z.leb_le in E.
  unfold gmtime in E.
  pose proof (ord2ymd_year (ts / 86400 + EPOCH_ORDINAL)) as Hy.
  destruct (ord2ymd (ts / 86400 + EPOCH_ORDINAL)) as [[y m] d]. simpl in E.
  apply Hy in E. unfold MIN_TIMESTAMP, MAX_TIMESTAMP, EPOCH_ORDINAL in *.
  Z.to_euclidean_division_equations. lia.
Qed.

Lemma zero_pad_2 (n : Z) : 0 <= n < 100 -> all_digits 2 (zero_pad 2 n) = true.
Proof.
  intros Hn.
  apply (forallb_range (fun n => all_digits 2 (zero_pad 2 n)) 0 100);
    [vm_compute; reflexivity | lia].
Qed.

Lemma zero_pad_year (pad : bool) (n : Z) :
  (if pad then 0 else 1000) <= n < 10000 ->
  all_digits 4 (zero_pad (if pad then 4 else 1) n) = true.
Proof.
  intros Hn. destruct pad.
  - apply (forallb_range (fun n => all_digits 4 (zero_pad 4 n)) 0 10000);
      [vm_compute; reflexivity | lia].
  - apply (forallb_range (fun n => all_digits 4 (zero_pad 1 n)) 1000 9000);
      [vm_compute; reflexivity | lia].
Qed.

Lemma chars_append (a b : string) : chars (a +:+ b) = chars a ++ chars b.
Proof. induction a as [|c a IH]; simpl; [reflexivity | f_equal; exact IH]. Qed.

Lemma matches_app (s1 s2 : list (ascii -> bool)) (l1 l2 : list ascii) :
  List.length s1 = List.length l1 ->
  matches (s1 ++ s2) (l1 ++ l2) = matches s1 l1 && matches s2 l2.
Proof.
  revert l1. induction s1 as [|p s1 IH]; intros [|c l1] Hlen; simpl in *; try discriminate.
  - reflexivity.
  - rewrite IH by congruence. apply andb_assoc.
Qed.

Lemma matches_digits (k : nat) (s : string) :
  all_digits k s = true ->
  List.length (repeat is_digit k) = List.length (chars s) /\
  matches (repeat is_digit k) (chars s) = true.
Proof.
  unfold all_digits. intros H. apply andb_true_iff in H as [Hlen Hall].
  apply Nat.eqb_eq in Hlen. split; [rewrite repeat_length; lia|].
  revert k Hlen. induction (chars s) as [|c l IH]; intros k Hlen; simpl in *; subst k.
  - reflexivity.
  - simpl. apply andb_true_iff in Hall as [-> Hall]. simpl. apply IH; auto.
Qed.

Lemma strftime_shape (pad : bool) (dt : datetime) :
  (if pad then 0 else 1000) <= year dt < 10000 ->
  0 <= month dt < 100 -> 0 <= day dt < 100 -> 0 <= hour dt < 100 ->
  0 <= minute dt < 100 -> 0 <= second dt < 100 ->
  is_ymd_hms (strftime_ymd_hms pad dt) = true.
Proof.
  intros Hy Hm Hd Hh Hmi Hs.
  destruct (matches_digits 4 _ (zero_pad_year pad _ Hy)) as [Ly My].
  destruct (matches_digits 2 _ (zero_pad_2 _ Hm)) as [Lm Mm].
  destruct (matches_digits 2 _ (zero_pad_2 _ Hd)) as [Ld Md].
  destruct (matches_digits 2 _ (zero_pad_2 _ Hh)) as [Lh Mh].
  destruct (matches_digits 2 _ (zero_pad_2 _ Hmi)) as [Lmi Mmi].
  destruct (matches_digits 2 _ (zero_pad_2 _ Hs)) as [Ls Ms].
  unfold is_ymd_hms, strftime_ymd_hms. rewrite !chars_append.
  change shape_ymd_hms with
    (repeat is_digit 4 ++ [Ascii.eqb "-"%char] ++ repeat is_digit 2 ++
     [Ascii.eqb "-"%char] ++ repeat is_digit 2 ++ [Ascii.eqb " "%char] ++
     repeat is_digit 2 ++ [Ascii.eqb ":"%char] ++ repeat is_digit 2 ++
     [Ascii.eqb ":"%char] ++ repeat is_digit 2 ++ []).
  rewrite <- (app_nil_r (chars (zero_pad 2 (second dt)))).
  repeat (rewrite matches_app; [|first [assumption | reflexivity]]).
  rewrite My, Mm, Md, Mh, Mmi, Ms. reflexivity.
Qed.

(** [gmtime] inverts [timegm]: the date and time it gives are those of the
    count, in the proleptic Gregorian calendar. *)
Lemma timegm_gmtime (ts : Z) : timegm (gmtime ts) = ts.
Proof.
  unfold timegm, gmtime.
  pose proof (ymd2ord_ord2ymd (ts / 86400 + EPOCH_ORDINAL)) as Hord.
  destruct (ord2ymd (ts / 86400 + EPOCH_ORDINAL)) as [[y m] d].
  cbn [year month day hour minute second]. rewrite Hord.
  Z.to_euclidean_division_equations. lia.
Qed.

Lemma gmtime_year_1000 (ts : Z) :
  YEAR_1000_TIMESTAMP <= ts -> 1000 <= year (gmtime ts).
Proof.
  intros Hts. unfold gmtime.
  assert (Hord : 364878 <= ts / 86400 + EPOCH_ORDINAL).
  { unfold YEAR_1000_TIMESTAMP, EPOCH_ORDINAL in *.
    Z.to_euclidean_division_equations. lia. }
  revert Hord. generalize (ts / 86400 + EPOCH_ORDINAL). intros ordinal Hord.
  unfold ord2ymd, DI400Y, DI100Y, DI4Y.
  set (n := ordinal - 1).
  destruct (_ || _) eqn:E.
  - cbn [year]. subst n. Z.to_euclidean_division_equations. lia.
  - destruct (month_day _ _) as [m d]. cbn [year]. subst n.
    Z.to_euclidean_division_equations. lia.
Qed.

End DatetimeFacts.

(** * The stages, run *)

Lemma file_key_snapshot (f : filesystem) : file_key f SNAPSHOT = SNAPSHOT.
Proof. unfold file_key. by destruct (same_as_snapshot f SNAPSHOT). Qed.

Lemma file_key_other (f : filesystem) (path : string) :
  file_key f path <> SNAPSHOT -> file_key f path = path.
Proof. unfold file_key. by destruct (same_as_snapshot f path). Qed.

Lemma file_key_cases (f : filesystem) (path : string) :
  file_key f path = SNAPSHOT \/ file_key f path = path.
Proof. unfold file_key. destruct (same_as_snapshot f path); [left | right]; reflexivity. Qed.

Lemma file_key_with_nodes (f : filesystem) (n : gmap string node) (path : string) :
  file_key (with_nodes f n) path = file_key f path.
Proof. reflexivity. Qed.

Lemma os_name_snapshot (f : filesystem) : os_name f SNAPSHOT = SNAPSHOT.
Proof. reflexivity. Qed.

(** A path that is handed to [open] as it is names the same file for
    [pandas] and for the operating system, and is written as text. *)
Lemma as_given_os_name (f : filesystem) (path : string) :
  Path.as_given path = true -> os_name f path = path.
Proof.
  unfold Path.as_given, Path.as_text, os_name, Path.special. intros H.
  apply andb_true_iff in H as [Htilde Htext].
  apply andb_true_iff in Htext as [Hcolon _].
  apply negb_true_iff in Htilde, Hcolon. by rewrite Htilde, Hcolon.
Qed.

Lemma as_given_as_text (path : string) :
  Path.as_given path = true -> Path.as_text path = true.
Proof. unfold Path.as_given. intros H. by apply andb_true_iff in H as [_ Htext]. Qed.

Lemma open_error_class (f : filesystem) (path : string) (e : exn) :
  open_error f path = Some e -> exn_cls e = OSError.
Proof.
  unfold open_error. case_bool_decide.
  - intros Hsome. by inversion Hsome.
  - destruct (nodes f !! file_key f path) as [[|]|]; intros Hsome; by inversion Hsome.
Qed.

Section LoadRun.

Variable d : DataFrame.
Variable path : string.
Variable w : world.

(** [load] of a frame that has rows, when the destination cannot be opened:
    the failure is logged. *)
Lemma load_open_fails (e : exn) :
  df_empty d = false ->
  open_error (fs w) path = Some e ->
  load (Some d) path w =
    (Ret tt, with_log w (log w ++ [mkLog ERROR "Load: failed: %s" [ArgExn e]])).
Proof.
  intros Hrows Hopen. unfold load. rewrite Hrows.
  unfold try_except, bind, path_exists, to_csv. cbv zeta. rewrite Hopen.
  cbn [find fst snd]. by rewrite every_class_is_an_Exception.
Qed.

(** The same when the destination can be opened and its path is handed to
    [open] as it is: the text is appended, with a header if [os.path.exists]
    did not find the file. *)
Lemma load_run_as_given :
  df_empty d = false ->
  Path.as_given path = true ->
  open_error (fs w) path = None ->
  load (Some d) path w =
    (Ret tt,
     with_log (with_fs w (appended d path w))
       (log w ++ [mkLog INFO "Load: appended %d row(s) to %s"
                    [ArgInt (df_len d); ArgStr path]])).
Proof.
  intros Hrows Hgiven Hopen. unfold load. rewrite Hrows.
  unfold try_except, bind, path_exists, to_csv, appended. cbv zeta. rewrite Hopen.
  rewrite (as_given_as_text path Hgiven), (as_given_os_name (fs w) path Hgiven).
  reflexivity.
Qed.

(** What [to_csv] makes of the destination inside [load], the attempt to open
    it apart. *)
Lemma load_run :
  df_empty d = false ->
  open_error (fs w) path = None ->
  let k := file_key (fs w) path in
  let found := bool_decide (is_Some (nodes (fs w) !! file_key (fs w) (os_name (fs w) path))) in
  let text := Csv.to_text d (negb found) in
  let store (w : world) (s : string) : world :=
    with_fs w (with_nodes (fs w) (<[k := File s]> (nodes (fs w)))) in
  let done := mkLog INFO "Load: appended %d row(s) to %s" [ArgInt (df_len d); ArgStr path] in
  load (Some d) path w =
    if Path.as_text path then
      (Ret tt, with_log (store w (file_data (fs w) k +:+ text)) (log w ++ [done]))
    else
      let o := foreign w path (file_data (fs w) k) text in
      let w1 := if Path.has_colon path then with_sent w (sent w ++ fetched o) else w in
      let w2 := match stored o with Some s => store w1 s | None => w1 end in
      (Ret tt,
       with_log w2
         (log w ++ [match failure o with
                    | Some e => mkLog ERROR "Load: failed: %s" [ArgExn e]
                    | None => done
                    end])).
Proof.
  intros Hrows Hopen. unfold load. rewrite Hrows.
  unfold try_except, bind, path_exists, to_csv. cbv zeta. rewrite Hopen.
  destruct (Path.as_text path); [reflexivity|].
  destruct (foreign w path _ _) as [urls [s|] [e|]]; cbn [fetched stored failure];
    destruct (Path.has_colon path); cbn [find fst snd];
    rewrite ?every_class_is_an_Exception; reflexivity.
Qed.

Lemma load_nothing :
  df_empty d = true ->
  load (Some d) path w =
    (Ret tt, with_log w (log w ++ [mkLog WARNING "Load: nothing to write (empty DataFrame)" []])).
Proof. intros Hrows. unfold load. rewrite Hrows. reflexivity. Qed.

End LoadRun.

Lemma load_none (path : string) (w : world) :
  load None path w =
    (Ret tt, with_log w (log w ++ [mkLog WARNING "Load: nothing to write (empty DataFrame)" []])).
Proof. reflexivity. Qed.

Lemma header_text_schema (rs : list (list cell)) :
  Csv.header_text (mkDataFrame SCHEMA rs) = HEADER_LINE.
Proof. reflexivity. Qed.

Lemma string_app_cons (x : ascii) (a b : string) :
  String x a +:+ b = String x (a +:+ b).
Proof. reflexivity. Qed.

Lemma string_app_assoc (a b c : string) : (a +:+ b) +:+ c = a +:+ (b +:+ c).
Proof.
  induction a as [|x a IH]; [reflexivity|].
  rewrite !string_app_cons. f_equal. exact IH.
Qed.

Lemma string_app_nil_r (a : string) : a +:+ "" = a.
Proof.
  induction a as [|x a IH]; [reflexivity|].
  rewrite string_app_cons. f_equal. exact IH.
Qed.

Lemma concat_app (l1 l2 : list string) :
  Csv.concat (l1 ++ l2) = Csv.concat l1 +:+ Csv.concat l2.
Proof.
  induction l1 as [|s l1 IH]; [reflexivity|].
  change (s +:+ Csv.concat (l1 ++ l2) = (s +:+ Csv.concat l1) +:+ Csv.concat l2).
  rewrite IH. symmetry. apply string_app_assoc.
Qed.

Lemma csv_log_snoc (rs : list (list cell)) (r : list cell) :
  csv_log (rs ++ [r]) = csv_log rs +:+ Csv.row_text r.
Proof.
  unfold csv_log. rewrite map_app, concat_app.
  change (Csv.concat (map Csv.row_text [r])) with (Csv.row_text r +:+ "").
  rewrite string_app_nil_r. symmetry. apply string_app_assoc.
Qed.

Lemma file_data_insert (f : filesystem) (n : gmap string node) (path s : string) :
  file_data (with_nodes f (<[path := File s]> n)) path = s.
Proof. unfold file_data. simpl. by rewrite lookup_insert_eq. Qed.

(** [load] returns, whatever it is given. *)
Lemma load_returns (df : option DataFrame) (path : string) (w : world) :
  fst (load df path w) = Ret tt.
Proof.
  destruct df as [d|]; [|reflexivity].
  destruct (df_empty d) eqn:Hempty; [by rewrite load_nothing|].
  destruct (open_error (fs w) path) as [e|] eqn:Hopen.
  - by rewrite (load_open_fails d path w e Hempty Hopen).
  - rewrite (load_run d path w Hempty Hopen). cbv zeta.
    by destruct (Path.as_text path).
Qed.

(** What the destination holds after a [load] that could open it, for a path
    that is handed to [open] as it is: what it held, a header only if it was
    not there, and the lines of the rows. *)
Lemma load_appends (d : DataFrame) (path : string) (w : world) :
  df_empty d = false ->
  Path.as_given path = true ->
  open_error (fs w) path = None ->
  let k := file_key (fs w) path in
  file_data (fs (snd (load (Some d) path w))) k =
    file_data (fs w) k +:+
    ((if bool_decide (is_Some (nodes (fs w) !! k)) then "" else Csv.header_text d)
     +:+ Csv.concat (map Csv.row_text (rows d))).
Proof.
  intros Hempty Hgiven Hopen. cbv zeta.
  rewrite load_run_as_given by assumption.
  cbv [snd with_log with_fs fs appended]. rewrite file_data_insert.
  unfold Csv.to_text. by destruct (bool_decide _).
Qed.

(** A [try] with the one clause [except Exception] lets nothing through. *)
Lemma try_except_Exception {A} (body : M A) (h : exn -> M A) (w : world) :
  try_except body [(Exception, h)] w =
    match body w with
    | (Ret a, w') => (Ret a, w')
    | (Raise e, w') => h e w'
    end.
Proof.
  unfold try_except. destruct (body w) as [[a|e] w']; [reflexivity|].
  cbn [find fst snd]. by rewrite every_class_is_an_Exception.
Qed.

Section TransformRun.

Variable record : pyval.
Variable w : world.

(** What [transform] does: a falsy record is answered with an empty frame
    and a warning; otherwise the conversion decides between one row and an
    empty frame with an error record. *)
Lemma transform_run :
  transform record w =
    if truthy record then
      match conversion record with
      | Ret (ts, lat, lon, dt) =>
          (Ret (mkDataFrame SCHEMA
                  [normalized_row ts (Datetime.strftime_ymd_hms (pads_year w) dt) lat lon]),
           with_log w (transform_started w ++ [mkLog INFO "Transform: produced 1 row" []]))
      | Raise e =>
          (Ret empty_frame,
           with_log w (transform_started w ++ [mkLog ERROR "Transform: failed: %s" [ArgExn e]]))
      end
    else
      (Ret empty_frame,
       with_log w (transform_started w ++
         [mkLog WARNING "Transform: empty record; returning empty DataFrame" []])).
Proof.
  unfold transform, conversion, transform_started.
  destruct (truthy record); [|reflexivity].
  cbn [negb]. cbv iota.
  unfold bind at 1. unfold logger_info at 1, log_at at 1.
  rewrite try_except_Exception.
  unfold bind, lift, logger_info, log_at, strftime_ymd_hms.
  destruct (and_then (getitem record "timestamp") Num.py_int) as [ts|e]; [|reflexivity].
  destruct (getitem record "iss_position") as [pos|e]; [|reflexivity].
  cbn [and_then].
  destruct (and_then (getitem pos "latitude") Num.py_float) as [lat|e]; [|reflexivity].
  destruct (and_then (getitem pos "longitude") Num.py_float) as [lon|e]; [|reflexivity].
  cbn [and_then].
  destruct (Datetime.fromtimestamp_utc ts) as [dt|e]; reflexivity.
Qed.

(** The conversion returns only when each of the three fields can be read
    and coerced on its own. *)
Lemma conversion_fields ts lat lon dt :
  conversion record = Ret (ts, lat, lon, dt) ->
  field_timestamp record = Ret ts /\ field_latitude record = Ret lat /\
  field_longitude record = Ret lon /\ Datetime.fromtimestamp_utc ts = Ret dt.
Proof.
  unfold conversion, field_timestamp, field_latitude, field_longitude.
  destruct (and_then (getitem record "timestamp") Num.py_int) as [ts'|e]; [|discriminate].
  destruct (getitem record "iss_position") as [pos|e]; [|discriminate].
  cbn [and_then].
  destruct (and_then (getitem pos "latitude") Num.py_float) as [lat'|e]; [|discriminate].
  destruct (and_then (getitem pos "longitude") Num.py_float) as [lon'|e]; [|discriminate].
  cbn [and_then].
  destruct (Datetime.fromtimestamp_utc ts') as [dt'|e] eqn:Hdt; [|discriminate].
  intros [= -> -> -> ->]. by rewrite Hdt.
Qed.

End TransformRun.

(** [transform] returns, whatever it is given: a frame of one row or the
    empty frame, and the files as they were. *)
Lemma transform_returns (record : pyval) (w : world) :
  exists df w',
    transform record w = (Ret df, w') /\
    (rows df = [] \/ exists r, rows df = [r]) /\
    fs w' = fs w.
Proof.
  rewrite transform_run. destruct (truthy record).
  - destruct (conversion record) as [[[[ts lat] lon] dt]|e].
    + eexists _, _. split; [reflexivity|]. split; [|reflexivity].
      right. eexists. reflexivity.
    + eexists _, _. split; [reflexivity|]. split; [|reflexivity]. by left.
  - eexists _, _. split; [reflexivity|]. split; [|reflexivity]. by left.
Qed.

Section ExtractRun.

Variable w : world.

(** What [extract] does, case by case.  The two [except] clauses answer the
    exceptions of the request and of the parsing; the [RecursionError] of the
    parsing and an exception of the writing of the snapshot or of [data.get]
    meet no clause. *)
Lemma extract_run :
  extract w =
    match net w with
    | NetFailure f =>
        extract_failed w "Extract: request failed: %s" (mkExn (net_error_class f) "request failed")
    | NetResponse r =>
        if http_error r then
          extract_failed w "Extract: request failed: %s" (mkExn HTTPError "Client or server error")
        else
          match content r with
          | NotJSON true =>
              extract_failed w "Extract: JSON parse failed: %s" (mkExn JSONDecodeError "Expecting value")
          | NotJSON false =>
              extract_failed w "Extract: request failed: %s"
                     (mkExn RequestsJSONDecodeError "Expecting value")
          | TooDeep None =>
              (Raise (mkExn RecursionError "maximum recursion depth exceeded"), requested w)
          | TooDeep (Some (data, part)) =>
              match open_error (fs w) SNAPSHOT with
              | Some e => (Raise e, requested w)
              | None =>
                  (Raise (mkExn RecursionError "maximum recursion depth exceeded"),
                   snapshot_written w part)
              end
          | JSON data dump =>
              match open_error (fs w) SNAPSHOT with
              | Some e => (Raise e, requested w)
              | None =>
                  match get_method data "message" with
                  | Ret message =>
                      (Ret data,
                       with_log (snapshot_written w dump)
                         (log (requested w) ++
                            [mkLog INFO "Extract: received message=%s" [ArgVal message]]))
                  | Raise e => (Raise e, snapshot_written w dump)
                  end
              end
          end
    end.
Proof.
  unfold extract, extract_failed, snapshot_written, requested.
  unfold bind at 1. unfold logger_info at 1, log_at at 1.
  unfold try_except, bind, requests_get. cbn [net with_log with_sent].
  destruct (net w) as [f|r].
  - destruct f; reflexivity.
  - unfold raise_for_status. destruct (http_error r); [reflexivity|].
    unfold ret, response_json.
    destruct (content r) as [data dump|[|]|[[data part]|]]; [|reflexivity..| |reflexivity].
    + unfold ret, json_dump, bind, write_text, lift. cbv zeta.
      cbn [fs with_log with_sent written complete].
      rewrite os_name_snapshot, file_key_snapshot.
      destruct (open_error (fs w) SNAPSHOT) as [e|] eqn:Hopen.
      * pose proof (open_error_class _ _ _ Hopen) as Hcls.
        destruct e as [cls msg]. cbn in Hcls. subst cls. reflexivity.
      * destruct data; reflexivity.
    + unfold ret, json_dump, bind, write_text, lift. cbv zeta.
      cbn [fs with_log with_sent written complete].
      rewrite os_name_snapshot, file_key_snapshot.
      destruct (open_error (fs w) SNAPSHOT) as [e|] eqn:Hopen.
      * pose proof (open_error_class _ _ _ Hopen) as Hcls.
        destruct e as [cls msg]. cbn in Hcls. subst cls. reflexivity.
      * reflexivity.
Qed.

(** Every failure of the extraction is answered with an empty mapping and
    one error record. *)
Lemma extract_handles_failures :
  extraction_fails (net w) = true ->
  exists msg e,
    extract w =
      (Ret (PDict ∅),
       with_log (requested w) (log (requested w) ++ [mkLog ERROR msg [ArgExn e]])).
Proof.
  intros Hfails. rewrite extract_run. unfold extraction_fails in Hfails.
  destruct (net w) as [f|r]; [by eexists _, _|].
  destruct (http_error r); [by eexists _, _|].
  destruct (content r) as [data dump|[|]|parsed]; [discriminate | by eexists _, _.. | discriminate].
Qed.

End ExtractRun.

Section MainRun.

Variable prog path : string.
Variable w : world.

(** [main] with one argument, when [extract] returns: the three stages run in
    order, each on the world the one before it left, and the result is 0. *)
Lemma main_completes (record : pyval) (w1 : world) :
  extract (main_started path w) = (Ret record, w1) ->
  exists df w2 w3,
    transform record w1 = (Ret df, w2) /\
    load (Some df) path w2 = (Ret tt, w3) /\
    main [prog; path] w = (Ret 0, with_log w3 (log w3 ++ [mkLog INFO "Done." []])).
Proof.
  intros Hextract.
  destruct (transform_returns record w1) as (df & w2 & Htransform & _).
  pose proof (load_returns (Some df) path w2) as Hload.
  destruct (load (Some df) path w2) as [r w3] eqn:Hl. cbn [fst] in Hload. subst r.
  exists df, w2, w3. split; [exact Htransform|]. split; [exact Hl|].
  unfold main. cbn [List.length Nat.eqb negb nth].
  unfold bind at 1. unfold init_logger at 1.
  unfold bind at 1. unfold logger_info at 1, log_at at 1.
  fold (main_started path w). unfold bind at 1. rewrite Hextract.
  unfold bind at 1. rewrite Htransform.
  unfold bind at 1. rewrite Hl. reflexivity.
Qed.

(** When [extract] raises, [main] raises the same exception: neither
    [transform] nor [load] runs. *)
Lemma main_propagates (e : exn) (w1 : world) :
  extract (main_started path w) = (Raise e, w1) -> main [prog; path] w = (Raise e, w1).
Proof.
  intros Hextract. unfold main. cbn [List.length Nat.eqb negb nth].
  unfold bind at 1. unfold init_logger at 1.
  unfold bind at 1. unfold logger_info at 1, log_at at 1.
  fold (main_started path w). unfold bind at 1. rewrite Hextract. reflexivity.
Qed.

End MainRun.

(** * The lines of a log *)

Module TextFacts.

Import Text.

Lemma chars_text (l : list ascii) : chars (text l) = l.
Proof. apply list_ascii_of_string_of_list_ascii. Qed.

Lemma text_chars (s : string) : text (chars s) = s.
Proof. apply string_of_list_ascii_of_string. Qed.

Lemma all_plain_nil : all_plain [].
Proof. intros c []. Qed.

Lemma all_plain_cons (c : ascii) (l : list ascii) :
  plain c = true -> all_plain l -> all_plain (c :: l).
Proof. intros Hc Hl x [<-|Hx]; [exact Hc | by apply Hl]. Qed.

Lemma all_plain_app (a b : list ascii) :
  all_plain a -> all_plain b -> all_plain (a ++ b).
Proof. intros Ha Hb c Hc. apply in_app_or in Hc as [Hc|Hc]; [by apply Ha | by apply Hb]. Qed.

Lemma all_plain_rev (l : list ascii) : all_plain l -> all_plain (rev l).
Proof. intros Hl c Hc. apply Hl. by apply in_rev. Qed.

Lemma all_plain_repeat (c : ascii) (n : nat) : plain c = true -> all_plain (repeat c n).
Proof. intros Hc x Hx. by rewrite (repeat_spec _ _ _ Hx). Qed.

Lemma all_plain_firstn (n : nat) (l : list ascii) : all_plain l -> all_plain (firstn n l).
Proof.
  intros Hl c Hc. apply Hl. rewrite <- (firstn_skipn n l). apply in_or_app. by left.
Qed.

Lemma all_plain_skipn (n : nat) (l : list ascii) : all_plain l -> all_plain (skipn n l).
Proof.
  intros Hl c Hc. apply Hl. rewrite <- (firstn_skipn n l). apply in_or_app. by right.
Qed.

Lemma digit_is_plain (c : ascii) : is_digit c = true -> plain c = true.
Proof.
  destruct c as [[] [] [] [] [] [] [] []]; vm_compute; congruence.
Qed.

Lemma digit_char_is_digit (d : Z) : 0 <= d < 10 -> is_digit (digit_char d) = true.
Proof.
  intros Hd.
  apply (DatetimeFacts.forallb_range (fun d => is_digit (digit_char d)) 0 10);
    [vm_compute; reflexivity | lia].
Qed.

Lemma digits_of_plain (fuel : nat) (n : Z) (acc : list ascii) :
  all_plain acc -> all_plain (digits_of fuel n acc).
Proof.
  revert n acc. induction fuel as [|fuel IH]; intros n acc Hacc; [exact Hacc|].
  cbn [digits_of].
  assert (Hd : plain (digit_char (n mod 10)) = true).
  { apply digit_is_plain, digit_char_is_digit. apply Z.mod_pos_bound. lia. }
  destruct (n <? 10).
  - by apply all_plain_cons.
  - apply IH. by apply all_plain_cons.
Qed.

Lemma str_of_int_plain (n : Z) : all_plain (chars (str_of_int n)).
Proof.
  unfold str_of_int. rewrite chars_text.
  destruct (n <? 0).
  - apply all_plain_cons; [reflexivity|]. apply digits_of_plain, all_plain_nil.
  - apply digits_of_plain, all_plain_nil.
Qed.

Lemma zero_pad_plain (width : nat) (n : Z) : all_plain (chars (zero_pad width n)).
Proof.
  unfold zero_pad. rewrite chars_text. apply all_plain_app.
  - by apply all_plain_repeat.
  - apply str_of_int_plain.
Qed.

Lemma drop_zeros_plain (l : list ascii) : all_plain l -> all_plain (Repr.drop_zeros l).
Proof.
  induction l as [|c l IH]; intros Hl; [exact Hl|].
  cbn [Repr.drop_zeros].
  assert (Hl' : all_plain l) by (intros x Hx; apply Hl; by right).
  destruct c as [[] [] [] [] [] [] [] []]; try exact Hl; by apply IH.
Qed.

Lemma layout_plain (q e10 : Z) : all_plain (Repr.layout q e10).
Proof.
  unfold Repr.layout.
  set (all := chars (str_of_int q)).
  assert (Hall : all_plain all) by apply str_of_int_plain.
  set (ds := rev (Repr.drop_zeros (rev all))).
  assert (Hds : all_plain ds) by (apply all_plain_rev, drop_zeros_plain, all_plain_rev, Hall).
  clearbody ds. clearbody all.
  destruct (_ || _).
  - apply all_plain_app.
    + destruct ds as [|c [|c' rest]]; try exact Hds.
      apply all_plain_cons; [apply Hds; by left|].
      apply all_plain_cons; [reflexivity|].
      intros x Hx. apply Hds. by right.
    + apply all_plain_cons; [reflexivity|].
      apply all_plain_cons; [by destruct (_ <? 0)|]. apply zero_pad_plain.
  - destruct (_ <=? 0).
    + apply all_plain_app; [|apply all_plain_app; [by apply all_plain_repeat | exact Hds]].
      intros c [<-|[<-|[]]]; reflexivity.
    + destruct (_ <=? _).
      * apply all_plain_app; [exact Hds|]. apply all_plain_app; [by apply all_plain_repeat|].
        intros c [<-|[<-|[]]]; reflexivity.
      * apply all_plain_app; [by apply all_plain_firstn|].
        apply all_plain_cons; [reflexivity | by apply all_plain_skipn].
Qed.

Lemma float_repr_plain (f : spec_float) : all_plain (chars (Repr.float_repr f)).
Proof.
  destruct f as [[]|[]| |neg m e]; cbn [Repr.float_repr];
    try (intros c Hc; cbn in Hc; repeat destruct Hc as [<-|Hc]; try reflexivity; contradiction).
  destruct (Repr.shortest m e) as [q e10]. rewrite chars_text.
  apply all_plain_app; [|apply layout_plain].
  destruct neg; [|apply all_plain_nil]. intros c [<-|[]]. reflexivity.
Qed.

Lemma plain_not_LF (c : ascii) : plain c = true -> c <> Csv.LF.
Proof. intros Hc ->. discriminate. Qed.

Lemma matches_plain (shape : list (ascii -> bool)) (l : list ascii) :
  (forall p, In p shape -> forall c, p c = true -> plain c = true) ->
  Datetime.matches shape l = true -> all_plain l.
Proof.
  revert l. induction shape as [|p shape IH]; intros [|c l] Hshape Hm;
    cbn [Datetime.matches] in Hm; try discriminate.
  - apply all_plain_nil.
  - apply andb_true_iff in Hm as [Hc Hm]. apply all_plain_cons.
    + apply (Hshape p); [by left | exact Hc].
    + apply IH; [|exact Hm]. intros q Hq. apply Hshape. by right.
Qed.

Lemma ymd_hms_plain (s : string) : Datetime.is_ymd_hms s = true -> all_plain (chars s).
Proof.
  apply matches_plain. intros p Hp c Hc.
  cbv [Datetime.shape_ymd_hms] in Hp.
  repeat (destruct Hp as [<-|Hp];
          [first [ by apply digit_is_plain
                 | apply Ascii.eqb_eq in Hc; by subst c ] |]).
  destruct Hp.
Qed.

Lemma cell_text_plain (c : cell) :
  match c with CStr s => all_plain (chars s) | _ => True end ->
  all_plain (chars (Csv.cell_text c)).
Proof.
  destruct c as [z|s|f]; cbn [Csv.cell_text]; intros Hs.
  - apply str_of_int_plain.
  - exact Hs.
  - destruct f; try apply float_repr_plain. apply all_plain_nil.
Qed.

Lemma field_plain (s : string) : all_plain (chars s) -> Csv.field s = s.
Proof.
  intros Hs. unfold Csv.field.
  assert (Hq : Csv.needs_quotes s = false); [|by rewrite Hq].
  unfold Csv.needs_quotes. apply not_true_is_false. intros Hex.
  apply existsb_exists in Hex as (c & Hin & Hc).
  specialize (Hs c Hin). unfold plain in Hs.
  rewrite !andb_true_iff, !negb_true_iff in Hs. destruct Hs as [[H1 H2] H3].
  by rewrite H1, H2, H3 in Hc.
Qed.

Lemma record_two (a b : string) (rest : list string) :
  Csv.record (a :: b :: rest) = join "," (map Csv.field (a :: b :: rest)) +:+ Csv.newline.
Proof. by destruct a. Qed.

Lemma digits_of_head (fuel : nat) (n : Z) (acc : list ascii) :
  exists d ds, 0 <= d < 10 /\ digits_of (S fuel) n acc = digit_char d :: ds.
Proof.
  revert n acc. induction fuel as [|fuel IH]; intros n acc.
  - exists (n mod 10). eexists. split; [apply Z.mod_pos_bound; lia|].
    cbn [digits_of]. by destruct (n <? 10).
  - cbn [digits_of]. destruct (n <? 10).
    + exists (n mod 10). eexists. split; [apply Z.mod_pos_bound; lia | reflexivity].
    + apply (IH (n / 10)).
Qed.

Lemma str_of_int_not_header (n : Z) (rest : string) :
  is_header (str_of_int n +:+ rest) = false.
Proof.
  unfold str_of_int.
  destruct (digits_of_head (Z.to_nat (Z.log2 (Z.abs n))) (Z.abs n) []) as (d & ds & Hd & ->).
  destruct (n <? 0); [reflexivity|].
  unfold is_header. cbn [text string_of_list_ascii]. rewrite string_app_cons.
  cbn [String.eqb].
  assert (Hc : Ascii.eqb (digit_char d) "t" = false); [|by rewrite Hc].
  apply (DatetimeFacts.forallb_range (fun d => negb (Ascii.eqb (digit_char d) "t")) 0 10)
    in Hd; [by apply negb_true_iff | vm_compute; reflexivity].
Qed.

Lemma strftime_plain (pad : bool) (dt : Datetime.datetime) :
  all_plain (chars (Datetime.strftime_ymd_hms pad dt)).
Proof.
  unfold Datetime.strftime_ymd_hms. rewrite !DatetimeFacts.chars_append.
  repeat first [ apply zero_pad_plain
               | apply all_plain_app
               | (intros c [<-|[]]; reflexivity) ].
Qed.

(** A row of the schema is written as one line of data. *)
Lemma row_text_line (r : list cell) :
  well_formed_row r ->
  exists l, Csv.row_text r = l +:+ Csv.newline /\ data_line l.
Proof.
  intros (ts & utc & lat & lon & -> & H2).
  pose proof (str_of_int_plain ts) as H1.
  pose proof (cell_text_plain (CFloat lat) I) as H3.
  pose proof (cell_text_plain (CFloat lon) I) as H4.
  unfold Csv.row_text, normalized_row. cbn [map]. rewrite record_two.
  cbn [map join Csv.cell_text] in *.
  rewrite !field_plain by assumption.
  eexists. split; [reflexivity|]. split.
  - intros c Hc. rewrite !DatetimeFacts.chars_append in Hc.
    repeat (apply in_app_or in Hc as [Hc|Hc];
            [first [ by apply plain_not_LF, H1 | by apply plain_not_LF, H2
                   | by apply plain_not_LF, H3
                   | destruct Hc as [<-|[]]; discriminate ] |]).
    by apply plain_not_LF, H4.
  - apply str_of_int_not_header.
Qed.

Lemma lines_from_line (current l rest : list ascii) :
  (forall c, In c l -> c <> Csv.LF) ->
  lines_from current (l ++ Csv.LF :: rest) = text (rev current ++ l) :: lines_from [] rest.
Proof.
  revert current. induction l as [|c l IH]; intros current Hl.
  - cbn [app lines_from]. rewrite Ascii.eqb_refl. by rewrite app_nil_r.
  - cbn [app lines_from].
    destruct (Ascii.eqb c Csv.LF) eqn:Hc.
    + apply Ascii.eqb_eq in Hc. exfalso. apply (Hl c); [by left | exact Hc].
    + rewrite IH by (intros x Hx; apply Hl; by right).
      cbn [rev]. by rewrite <- app_assoc.
Qed.

Lemma lines_of_lines (ls : list string) :
  Forall (fun l => forall c, In c (chars l) -> c <> Csv.LF) ls ->
  lines (Csv.concat (map (fun l => l +:+ Csv.newline) ls)) = ls.
Proof.
  unfold lines. induction 1 as [|l ls Hl _ IH]; [reflexivity|].
  cbn [map Csv.concat]. rewrite !DatetimeFacts.chars_append.
  change (chars Csv.newline) with [Csv.LF]. rewrite <- app_assoc. cbn [app].
  rewrite lines_from_line by exact Hl. cbn [rev app]. by rewrite text_chars, IH.
Qed.

(** A log of rows of the schema has one header line, the first, and one line
    of data per row. *)
Lemma csv_log_lines (rs : list (list cell)) :
  Forall well_formed_row rs ->
  header_lines (csv_log rs) = 1%nat /\ data_lines (csv_log rs) = List.length rs.
Proof.
  intros Hrs.
  assert (Hls : exists ls, map Csv.row_text rs = map (fun l => l +:+ Csv.newline) ls /\
                           Forall data_line ls /\ List.length ls = List.length rs).
  { induction Hrs as [|r rs Hr _ (ls & Hmap & Hdata & Hlen)].
    - exists []. by repeat split.
    - destruct (row_text_line r Hr) as (l & Hl & Hd).
      exists (l :: ls). cbn [map List.length]. rewrite Hl, Hmap, Hlen.
      repeat split. by constructor. }
  destruct Hls as (ls & Hmap & Hdata & Hlen).
  assert (Hlines : lines (csv_log rs) =
                   "timestamp_unix,timestamp_utc,latitude,longitude"%string :: ls).
  { unfold csv_log. rewrite Hmap.
    change (HEADER_LINE +:+ Csv.concat (map (fun l => l +:+ Csv.newline) ls))
      with (Csv.concat (map (fun l => l +:+ Csv.newline)
              ("timestamp_unix,timestamp_utc,latitude,longitude"%string :: ls))).
    apply lines_of_lines. constructor.
    - intros c Hc. cbn in Hc. intros ->.
      repeat (destruct Hc as [Hc|Hc]; [discriminate|]). destruct Hc.
    - eapply Forall_impl; [exact Hdata|]. by intros l [Hl _]. }
  unfold header_lines, data_lines. rewrite Hlines. cbn [List.filter].
  change (is_header "timestamp_unix,timestamp_utc,latitude,longitude") with true.
  cbn [negb List.length]. rewrite <- Hlen. clear Hlines Hmap Hlen.
  induction Hdata as [|l ls [_ Hl] _ [IH1 IH2]]; [by split|].
  cbn [List.filter]. rewrite Hl. cbn [negb List.length]. split; lia.
Qed.

(** The rows of a frame that [transform] returns are rows of the schema. *)
Lemma transform_rows_well_formed (record : pyval) (w w' : world) (df : DataFrame) :
  transform record w = (Ret df, w') -> Forall well_formed_row (rows df).
Proof.
  rewrite transform_run. destruct (truthy record).
  - destruct (conversion record) as [[[[ts lat] lon] dt]|e]; intros [= <- _].
    + constructor; [|constructor]. eexists _, _, _, _. split; [reflexivity|].
      apply strftime_plain.
    + constructor.
  - intros [= <- _]. constructor.
Qed.

End TextFacts.

(** * The loader *)

(** C7.  [load] with zero rows performs no write, whatever the target path:
    it returns, every file keeps its contents and no file is created. *)
Theorem C7_load_zero_rows_writes_nothing
    (df : option DataFrame) (path : string) (w : world) :
  (forall d, df = Some d -> rows d = []) ->
  exists w', load df path w = (Ret tt, w') /\ fs w' = fs w.
Proof.
  intros Hzero. destruct df as [d|].
  - assert (Hempty : df_empty d = true).
    { unfold df_empty. rewrite (Hzero d eq_refl). by destruct (columns d). }
    rewrite load_nothing by exact Hempty. eexists. split; reflexivity.
  - rewrite load_none. eexists. split; reflexivity.
Qed.

Lemma C7_witness :
  rows empty_frame = [] /\
  exists w', load (Some empty_frame) "iss.csv" Sample.touched_world = (Ret tt, w') /\
             fs w' = fs Sample.touched_world.
Proof.
  split; [reflexivity|].
  apply (C7_load_zero_rows_writes_nothing (Some empty_frame) "iss.csv" Sample.touched_world).
  intros d Hd. inversion Hd. reflexivity.
Defined.

(** C8.  [load] never raises, whatever the frame and the path; when the
    destination cannot be opened, the failure is logged as an error and the
    file system stays as it was. *)
Theorem C8_load_never_raises (df : option DataFrame) (path : string) (w : world) :
  fst (load df path w) = Ret tt /\
  forall d e, df = Some d -> df_empty d = false -> open_error (fs w) path = Some e ->
    fs (snd (load df path w)) = fs w /\
    log (snd (load df path w)) = log w ++ [mkLog ERROR "Load: failed: %s" [ArgExn e]].
Proof.
  split; [apply load_returns|].
  intros d e -> Hempty Hopen. rewrite (load_open_fails d path w e Hempty Hopen).
  split; reflexivity.
Qed.

Lemma C8_witness :
  let w := Sample.read_only_world in
  let out := load (Some Sample.frame) SNAPSHOT w in
  open_error (fs w) SNAPSHOT = Some (mkExn OSError "Permission denied") /\
  fst out = Ret tt /\ fs (snd out) = fs w /\
  log (snd out) =
    log w ++ [mkLog ERROR "Load: failed: %s" [ArgExn (mkExn OSError "Permission denied")]].
Proof.
  pose proof (C8_load_never_raises (Some Sample.frame) SNAPSHOT Sample.read_only_world)
    as [Hret Hfail].
  split; [vm_compute; reflexivity|]. split; [exact Hret|].
  apply (Hfail Sample.frame); vm_compute; reflexivity.
Defined.

(** C9, at its failing input.  The destination is "~/iss.csv", and the file
    [iss.csv] of the home directory holds the header line and one row.
    [os.path.exists] does not expand the tilde and finds no file of that
    name; [to_csv] expands it and appends to the file that is there.  So
    [load] returns and reports one row appended, and the file holds a second
    header line between its row and the new one: a header is written although
    the file was there and [load] did not create it. *)
Theorem C9_header_repeated_behind_a_tilde :
  let w := Sample.home_world in
  let out := load (Some Sample.frame) "~/iss.csv" w in
  nodes (fs w) !! "~/iss.csv"%string = Some (File (csv_log [Sample.row])) /\
  path_exists "~/iss.csv" w = (Ret false, w) /\
  fst out = Ret tt /\
  file_data (fs (snd out)) "~/iss.csv" =
    csv_log [Sample.row] +:+ HEADER_LINE +:+ Sample.ROW_LINE /\
  header_lines (file_data (fs (snd out)) "~/iss.csv") = 2%nat /\
  data_lines (file_data (fs (snd out)) "~/iss.csv") = 2%nat /\
  log (snd out) =
    [mkLog INFO "Load: appended %d row(s) to %s" [ArgInt 1; ArgStr "~/iss.csv"]].
Proof. vm_compute. repeat split; reflexivity. Qed.

(** C4, as the specification has it, fails on a destination that exists and
    is empty: it holds no data row, and after [load] of one row it holds that
    row and no header line at all. *)
Lemma C4_counterexample_existing_empty_file :
  let w := Sample.touched_world in
  let w' := snd (load (Some Sample.frame) "iss.csv" w) in
  nodes (fs w) !! "iss.csv"%string = Some (File "") /\
  data_lines (file_data (fs w) "iss.csv") = 0%nat /\
  fst (load (Some Sample.frame) "iss.csv" w) = Ret tt /\
  file_data (fs w') "iss.csv" = Sample.ROW_LINE /\
  data_lines (file_data (fs w') "iss.csv") = 1%nat /\
  header_lines (file_data (fs w') "iss.csv") = 0%nat.
Proof. vm_compute. repeat split; reflexivity. Qed.

(** C4, amended.  For a frame of one row with the columns of the schema and a
    destination whose path [to_csv] hands to [open] as it is -- no tilde in
    front, no colon, no extension of a compressed format -- and that can be
    opened for appending: when the destination is absent, [load] creates it
    with the header line followed by the line of the row; when it is present,
    what it holds stays in front, unchanged, and the line of the row follows;
    so a destination that holds the header line and N data rows holds the
    header line and N+1 data rows afterwards -- for rows as [transform] builds
    them, one header line and N+1 lines of data. *)
Theorem C4_load_single_row (r : list cell) (path : string) (w : world) :
  Path.as_given path = true ->
  open_error (fs w) path = None ->
  let k := file_key (fs w) path in
  let w' := snd (load (Some (mkDataFrame SCHEMA [r])) path w) in
  (nodes (fs w) !! k = None ->
     file_data (fs w') k = HEADER_LINE +:+ Csv.row_text r /\
     (well_formed_row r ->
        header_lines (file_data (fs w') k) = 1%nat /\
        data_lines (file_data (fs w') k) = 1%nat)) /\
  (forall old, nodes (fs w) !! k = Some (File old) ->
     file_data (fs w') k = old +:+ Csv.row_text r) /\
  (forall rs, nodes (fs w) !! k = Some (File (csv_log rs)) ->
     file_data (fs w') k = csv_log (rs ++ [r]) /\
     (Forall well_formed_row (rs ++ [r]) ->
        header_lines (file_data (fs w') k) = 1%nat /\
        data_lines (file_data (fs w') k) = S (List.length rs))).
Proof.
  intros Hgiven Hopen. cbv zeta.
  rewrite (load_appends (mkDataFrame SCHEMA [r]) path w eq_refl Hgiven Hopen).
  change (Csv.concat (map Csv.row_text (rows (mkDataFrame SCHEMA [r]))))
    with (Csv.row_text r +:+ "").
  rewrite string_app_nil_r, header_text_schema.
  set (k := file_key (fs w) path).
  split; [|split].
  - intros Habsent. unfold file_data. rewrite Habsent.
    change ("" +:+ (if bool_decide (is_Some (@None node)) then "" else HEADER_LINE)
               +:+ Csv.row_text r)
      with (HEADER_LINE +:+ Csv.row_text r).
    split; [reflexivity|]. intros Hr.
    rewrite <- (string_app_nil_r (Csv.row_text r)).
    change (HEADER_LINE +:+ Csv.row_text r +:+ "") with (csv_log [r]).
    apply (TextFacts.csv_log_lines [r]). by constructor.
  - intros old Hold. unfold file_data. rewrite Hold. reflexivity.
  - intros rs Hlog. unfold file_data. rewrite Hlog.
    change (csv_log rs +:+ (if bool_decide (is_Some (Some (File (csv_log rs))))
                            then "" else HEADER_LINE) +:+ Csv.row_text r)
      with (csv_log rs +:+ Csv.row_text r).
    rewrite <- csv_log_snoc. split; [reflexivity|]. intros Hrows.
    destruct (TextFacts.csv_log_lines (rs ++ [r]) Hrows) as [Hh Hd].
    split; [exact Hh|]. rewrite Hd, length_app. cbn. lia.
Qed.

Lemma C4_witness :
  let w := Sample.world0 in
  let w' := snd (load (Some (mkDataFrame SCHEMA [Sample.row])) "iss.csv" w) in
  Path.as_given "iss.csv" = true /\
  open_error (fs w) "iss.csv" = None /\
  nodes (fs w) !! "iss.csv"%string = None /\
  file_data (fs w') "iss.csv" = HEADER_LINE +:+ Csv.row_text Sample.row.
Proof.
  split; [vm_compute; reflexivity|]. split; [vm_compute; reflexivity|].
  split; [vm_compute; reflexivity|].
  refine (proj1 (proj1 (C4_load_single_row Sample.row "iss.csv" Sample.world0 _ _) _));
    vm_compute; reflexivity.
Defined.

(** * The transformer *)

(** C1, as the specification has it, fails on a reading stamped in
    milliseconds: the timestamp is a number and both coordinates are strings
    that [float] accepts, yet the year of the date is beyond 9999,
    [fromtimestamp] raises, and [transform] answers with no row. *)
Lemma C1_counterexample_timestamp_in_milliseconds :
  field_timestamp Sample.record_in_milliseconds = Ret 1700000000000 /\
  field_latitude Sample.record_in_milliseconds = Ret Sample.lat /\
  field_longitude Sample.record_in_milliseconds = Ret Sample.lon /\
  fst (transform Sample.record_in_milliseconds Sample.world0) = Ret empty_frame /\
  rows empty_frame = [].
Proof. vm_compute. repeat split; reflexivity. Qed.

(** C1, amended.  For a record with a [timestamp] that [int] accepts and
    whose value lies between 0001-01-01 00:00:00 and 9999-12-31 23:59:59 UTC,
    and an [iss_position] mapping with [latitude] and [longitude] strings that
    [float] accepts, [transform] returns exactly one row: the value of [int],
    the [strftime] text of its UTC date and time, and the two values of
    [float].  The date and time are those of the count of seconds in the
    Gregorian calendar, and the text has the form YYYY-MM-DD HH:MM:SS from the
    year 1000 on, and for every year where the C library pads the year. *)
Theorem C1_transform_valid_record
    (d pos : gmap string pyval) (v : pyval) (ts : Z)
    (slat slon : string) (lat lon : spec_float) (w : world) :
  d !! "timestamp"%string = Some v -> Num.py_int v = Ret ts ->
  Datetime.MIN_TIMESTAMP <= ts <= Datetime.MAX_TIMESTAMP ->
  d !! "iss_position"%string = Some (PDict pos) ->
  pos !! "latitude"%string = Some (PStr slat) -> Num.float_of_str slat = Ret lat ->
  pos !! "longitude"%string = Some (PStr slon) -> Num.float_of_str slon = Ret lon ->
  let utc := Datetime.strftime_ymd_hms (pads_year w) (Datetime.gmtime ts) in
  fst (transform (PDict d) w) = Ret (mkDataFrame SCHEMA [normalized_row ts utc lat lon]) /\
  Datetime.timegm (Datetime.gmtime ts) = ts /\
  (pads_year w = true \/ Datetime.YEAR_1000_TIMESTAMP <= ts ->
   Datetime.is_ymd_hms utc = true).
Proof.
  intros Hv Hint Hrange Hpos Hslat Hlat Hslon Hlon. cbv zeta.
  split; [|split; [apply DatetimeFacts.timegm_gmtime|]].
  - rewrite transform_run.
    assert (Htruthy : truthy (PDict d) = true).
    { cbn. case_bool_decide as Hd; [|reflexivity].
      rewrite Hd, lookup_empty in Hv. discriminate. }
    rewrite Htruthy. unfold conversion. cbn [getitem].
    rewrite Hv, Hpos. cbn [and_then getitem]. rewrite Hint, Hslat, Hslon.
    cbn [and_then Num.py_float]. rewrite Hlat, Hlon. cbn [and_then].
    rewrite (DatetimeFacts.fromtimestamp_utc_in_range ts Hrange). reflexivity.
  - intros Hyear.
    pose proof (DatetimeFacts.gmtime_fields ts Hrange) as (Hy & Hm & Hd & Hh & Hmi & Hs).
    apply DatetimeFacts.strftime_shape; try lia.
    destruct (pads_year w) eqn:Hpad; [lia|].
    destruct Hyear as [Hyear|Hyear]; [discriminate|].
    pose proof (DatetimeFacts.gmtime_year_1000 ts Hyear). lia.
Qed.

(** The end-to-end example of the specification. *)
Lemma C1_witness :
  Num.py_int (PInt 1700000000) = Ret 1700000000 /\
  Datetime.MIN_TIMESTAMP <= 1700000000 <= Datetime.MAX_TIMESTAMP /\
  Num.float_of_str "10.5" = Ret Sample.lat /\
  Num.float_of_str "-20.25" = Ret Sample.lon /\
  fst (transform Sample.record Sample.world0) =
    Ret (mkDataFrame SCHEMA
           [normalized_row 1700000000 "2023-11-14 22:13:20"
              Sample.lat Sample.lon]) /\
  Datetime.is_ymd_hms "2023-11-14 22:13:20" = true.
Proof.
  split; [reflexivity|]. split; [vm_compute; split; discriminate|].
  split; [vm_compute; reflexivity|]. split; [vm_compute; reflexivity|].
  pose proof (C1_transform_valid_record
    {[ "timestamp" := PInt 1700000000;
       "iss_position" := PDict {[ "latitude" := PStr "10.5";
                                  "longitude" := PStr "-20.25" ]} ]}
    {[ "latitude" := PStr "10.5"; "longitude" := PStr "-20.25" ]}
    (PInt 1700000000) 1700000000 "10.5" "-20.25"
    Sample.lat Sample.lon Sample.world0) as H.
  cbv zeta in H.
  change (Datetime.strftime_ymd_hms (pads_year Sample.world0) (Datetime.gmtime 1700000000))
    with "2023-11-14 22:13:20"%string in H.
  destruct H as (Hrow & _ & Hshape); try (vm_compute; reflexivity).
  - vm_compute. split; discriminate.
  - split; [exact Hrow|]. apply Hshape. left. reflexivity.
Defined.



(** C10.  [transform] is total: for every value whatever, a mapping or not,
    well formed or not, it returns, and what it returns is either a frame of
    exactly one row or the empty frame; no exception leaves it. *)
Theorem C10_transform_total (record : pyval) (w : world) :
  exists df w',
    transform record w = (Ret df, w') /\
    (rows df = [] \/ exists r, rows df = [r]) /\
    fs w' = fs w.
Proof.
  rewrite transform_run. destruct (truthy record).
  - destruct (conversion record) as [[[[ts lat] lon] dt]|e].
    + eexists _, _. split; [reflexivity|]. split; [|reflexivity].
      right. eexists. reflexivity.
    + eexists _, _. split; [reflexivity|]. split; [|reflexivity]. by left.
  - eexists _, _. split; [reflexivity|]. split; [|reflexivity]. by left.
Qed.

(** * The extractor and the orchestrator *)

(** C2, at its failing inputs.  With a working directory in which the
    snapshot cannot be written, a good response makes [extract] raise the
    [OSError] of [open]; with a response whose JSON body is an array,
    [extract] raises the [AttributeError] of [data.get] after it has written
    the snapshot.  Neither is a [RequestException] or a [ValueError], so no
    clause of the [try] answers it. *)
Theorem C2_extract_raises_past_its_boundary :
  extract Sample.read_only_world =
    (Raise (mkExn OSError "Permission denied"),
     with_sent
       (with_log Sample.read_only_world
          [mkLog INFO "Extract: requesting %s" [ArgStr ISS_URL]])
       [ISS_URL]) /\
  fst (extract Sample.array_world) =
    Raise (mkExn AttributeError "object has no attribute 'get'") /\
  file_data (fs (snd (extract Sample.array_world))) SNAPSHOT = "[]".
Proof. vm_compute. repeat split; reflexivity. Qed.

(** C3, at its failing input.  With one argument and a working directory in
    which the snapshot cannot be written, [main] does not return 0: the
    exception of [extract] leaves it, the process ends with status 1, and
    neither [transform] nor [load] has run -- nothing is logged after the
    request and the destination is not created. *)
Theorem C3_main_ends_when_extract_raises :
  let out := main ["iss.py"; "iss.csv"]%string Sample.read_only_world in
  fst out = Raise (mkExn OSError "Permission denied") /\
  fst (exit_status ["iss.py"; "iss.csv"]%string Sample.read_only_world) = 1 /\
  map log_msg (log (snd out)) =
    ["Starting ISS ETL; output=%s"; "Extract: requesting %s"]%string /\
  nodes (fs (snd out)) !! "iss.csv"%string = None.
Proof. vm_compute. repeat split; reflexivity. Qed.

(** C5.  With an argument vector of any length but two -- no positional
    argument, or two and more -- [main] logs the usage error and returns 2;
    no request is sent, no file is touched, and nothing else is logged, so
    [extract] has not run. *)
Theorem C5_main_usage_error (argv : list string) (w : world) :
  List.length argv <> 2%nat ->
  exists w',
    main argv w = (Ret 2, w') /\
    fst (exit_status argv w) = 2 /\
    sent w' = sent w /\
    fs w' = fs w /\
    log w' = log w ++ [mkLog ERROR "Usage: python3 iss.py <output_csv_file>" []].
Proof.
  intros Hlen. unfold exit_status, main.
  destruct (Nat.eqb (List.length argv) 2) eqn:E; [apply Nat.eqb_eq in E; contradiction|].
  cbn [negb]. unfold bind, init_logger, logger_error, log_at, ret.
  eexists. split; [reflexivity|].
  repeat split; by destruct (Nat.eqb (handlers w) 0).
Qed.

Lemma C5_witness :
  List.length ["iss.py"; "a.csv"; "b.csv"]%string <> 2%nat /\
  exists w',
    main ["iss.py"; "a.csv"; "b.csv"]%string Sample.world0 = (Ret 2, w') /\
    fst (exit_status ["iss.py"; "a.csv"; "b.csv"]%string Sample.world0) = 2 /\
    sent w' = sent Sample.world0 /\
    fs w' = fs Sample.world0 /\
    log w' = log Sample.world0 ++
             [mkLog ERROR "Usage: python3 iss.py <output_csv_file>" []].
Proof.
  assert (Hlen : List.length ["iss.py"; "a.csv"; "b.csv"]%string <> 2%nat)
    by (cbn; lia).
  split; [exact Hlen|].
  exact (C5_main_usage_error ["iss.py"; "a.csv"; "b.csv"]%string Sample.world0 Hlen).
Defined.

(** * Further properties of the stages *)

(** ** [init_logger] *)

(** X1.  [init_logger] adds its handler once: after a call the logger has at
    least one handler, a logger that had handlers keeps exactly those, and a
    second call changes nothing.  Nothing is logged and no file is touched. *)
Theorem X1_init_logger_adds_one_handler (w : world) :
  let w1 := snd (init_logger w) in
  fst (init_logger w) = Ret tt /\
  handlers w1 = Nat.max (handlers w) 1 /\
  init_logger w1 = (Ret tt, w1) /\
  log w1 = log w /\ fs w1 = fs w /\ sent w1 = sent w.
Proof.
  cbv zeta. unfold init_logger. cbn [fst snd].
  destruct (handlers w) as [|n] eqn:Hn; cbn [Nat.eqb].
  - repeat split.
  - cbn [Nat.eqb]. rewrite Hn. cbn [Nat.eqb]. repeat split. lia.
Qed.

(** ** [extract] *)

Lemma extract_frame (w : world) :
  sent (snd (extract w)) = sent w ++ ISS_URL :: redirects w /\
  net (snd (extract w)) = net w /\
  unwritable (fs (snd (extract w))) = unwritable (fs w) /\
  same_as_snapshot (fs (snd (extract w))) = same_as_snapshot (fs w) /\
  forall p, p <> SNAPSHOT -> nodes (fs (snd (extract w))) !! p = nodes (fs w) !! p.
Proof.
  rewrite extract_run. unfold extract_failed, snapshot_written, requested.
  destruct (net w) as [f|r] eqn:Hnet; [by repeat split|].
  destruct (http_error r); [by repeat split|].
  destruct (content r) as [data dump|[|]|[[data part]|]]; [|by repeat split..| |by repeat split].
  - destruct (open_error (fs w) SNAPSHOT); [by repeat split|].
    destruct (get_method data "message"); cbn;
      (repeat split; try done; intros p Hp; by rewrite lookup_insert_ne).
  - destruct (open_error (fs w) SNAPSHOT); [by repeat split|].
    cbn. repeat split; try done. intros p Hp. by rewrite lookup_insert_ne.
Qed.

(** X2.  Every failure of the extraction -- no response, a 4xx or 5xx status,
    a body that is not JSON -- is answered in the same way, whatever the state
    of the file system: [extract] returns the empty mapping, which
    [transform] takes for an empty record, after one call of [requests.get]
    -- the request to the fixed address, then those that redirects led to --
    and with one error record behind the announcement; no file is written. *)
Theorem X2_extract_failure_is_empty_record (w : world) :
  extraction_fails (net w) = true ->
  exists w' msg e,
    extract w = (Ret (PDict ∅), w') /\
    truthy (PDict ∅) = false /\
    fs w' = fs w /\
    sent w' = sent w ++ ISS_URL :: redirects w /\
    log w' = log w ++ [mkLog INFO "Extract: requesting %s" [ArgStr ISS_URL];
                       mkLog ERROR msg [ArgExn e]].
Proof.
  intros Hfails. destruct (extract_handles_failures w Hfails) as (msg & e & Hrun).
  eexists _, msg, e. split; [exact Hrun|]. unfold requested.
  repeat split. cbn. by rewrite <- app_assoc.
Qed.

Lemma X2_witness :
  let w := with_net Sample.read_only_world (NetFailure TimedOut) in
  extraction_fails (net w) = true /\
  exists w' msg e,
    extract w = (Ret (PDict ∅), w') /\
    truthy (PDict ∅) = false /\
    fs w' = fs w /\
    sent w' = sent w ++ ISS_URL :: redirects w /\
    log w' = log w ++ [mkLog INFO "Extract: requesting %s" [ArgStr ISS_URL];
                       mkLog ERROR msg [ArgExn e]].
Proof.
  split; [reflexivity|].
  apply (X2_extract_failure_is_empty_record
           (with_net Sample.read_only_world (NetFailure TimedOut))).
  reflexivity.
Defined.

(** X3.  With a response that is no error and whose body parses to a JSON
    object, and a snapshot file that can be opened, [extract] returns the
    object as parsed; the snapshot holds the dump of this response and
    nothing of what it held before, every other file is as it was, the
    requests sent are the one to the fixed address and those that redirects
    led to, and the [message] of the body is logged. *)
Theorem X3_extract_success
    (w : world) (r : response) (d : gmap string pyval) (dump : string) :
  net w = NetResponse r -> http_error r = false -> content r = JSON (PDict d) dump ->
  open_error (fs w) SNAPSHOT = None ->
  exists w',
    extract w = (Ret (PDict d), w') /\
    file_data (fs w') SNAPSHOT = dump /\
    (forall p, p <> SNAPSHOT -> nodes (fs w') !! p = nodes (fs w) !! p) /\
    sent w' = sent w ++ ISS_URL :: redirects w /\
    log w' = log w ++ [mkLog INFO "Extract: requesting %s" [ArgStr ISS_URL];
                       mkLog INFO "Extract: received message=%s"
                         [ArgVal (default PNone (d !! "message"%string))]].
Proof.
  intros Hnet Hstatus Hbody Hopen.
  rewrite extract_run, Hnet, Hstatus, Hbody, Hopen. cbn [get_method].
  eexists. split; [reflexivity|].
  unfold snapshot_written, requested. cbn.
  split; [apply file_data_insert|].
  split; [intros p Hp; by rewrite lookup_insert_ne|].
  split; [reflexivity|]. by rewrite <- app_assoc.
Qed.

Lemma X3_witness :
  exists w',
    extract Sample.world0 = (Ret Sample.iss_body, w') /\
    file_data (fs w') SNAPSHOT = Sample.iss_dump /\
    (forall p, p <> SNAPSHOT -> nodes (fs w') !! p = nodes (fs Sample.world0) !! p) /\
    sent w' = sent Sample.world0 ++ ISS_URL :: redirects Sample.world0 /\
    log w' = log Sample.world0 ++
             [mkLog INFO "Extract: requesting %s" [ArgStr ISS_URL];
              mkLog INFO "Extract: received message=%s" [ArgVal (PStr "success")]].
Proof.
  exact (X3_extract_success Sample.world0 (mkResponse 200 (JSON Sample.iss_body Sample.iss_dump))
           _ Sample.iss_dump eq_refl eq_refl eq_refl eq_refl).
Defined.

(** X4.  The failures that [extract] does not answer.  With a response that
    is no error, [extract] raises when the body is JSON nested too deep for
    the parser or the encoder, when the body parses and the snapshot file
    cannot be opened, and when the body parses to something that is not an
    object; none of these is among the failures that it answers with an
    empty mapping. *)
Theorem X4_extract_raises_on_unanswered_failures (w : world) (r : response) :
  net w = NetResponse r -> http_error r = false ->
  ((exists parsed, content r = TooDeep parsed) \/
   exists data dump, content r = JSON data dump /\
     (is_Some (open_error (fs w) SNAPSHOT) \/ forall d, data <> PDict d)) ->
  returns (fst (extract w)) = false /\ extraction_fails (net w) = false.
Proof.
  intros Hnet Hstatus Hwhy. rewrite extract_run, Hnet, Hstatus.
  unfold extraction_fails. rewrite Hstatus.
  destruct Hwhy as [[parsed ->] | (data & dump & -> & Hwhy)].
  { split; [|reflexivity]. destruct parsed as [[data part]|]; [|reflexivity].
    by destruct (open_error (fs w) SNAPSHOT). }
  split; [|reflexivity].
  destruct (open_error (fs w) SNAPSHOT) as [e|]; [reflexivity|].
  destruct Hwhy as [[e He]|Hdata]; [discriminate|].
  destruct data; try reflexivity. by destruct (Hdata d).
Qed.

Lemma X4_witness :
  returns (fst (extract Sample.array_world)) = false /\
  extraction_fails (net Sample.array_world) = false.
Proof.
  refine (X4_extract_raises_on_unanswered_failures Sample.array_world
            (mkResponse 200 (JSON (PList []) "[]")) eq_refl eq_refl _).
  right. exists (PList []), "[]"%string. split; [reflexivity|]. right. discriminate.
Defined.

(** X5.  Whatever happens, [extract] calls [requests.get] once, for the fixed
    address -- the requests sent are this one and those that redirects led
    to -- and touches no file but the snapshot; the permissions stay as they
    were. *)
Theorem X5_extract_one_call_one_file (w : world) :
  sent (snd (extract w)) = sent w ++ ISS_URL :: redirects w /\
  unwritable (fs (snd (extract w))) = unwritable (fs w) /\
  forall p, p <> SNAPSHOT -> nodes (fs (snd (extract w))) !! p = nodes (fs w) !! p.
Proof.
  destruct (extract_frame w) as (Hsent & _ & Hperm & _ & Hother).
  by repeat split.
Qed.

(** X6.  The two [except] clauses are tried in order, so the exception of
    [resp.json()] that [requests] raises from version 2.27 on, a
    [RequestException] as well as a [ValueError], is reported as a failed
    request; the record "JSON parse failed" is written only for the plain
    [ValueError] of the [json] module. *)
Theorem X6_json_failure_is_reported_by_the_first_clause
    (w : world) (r : response) (plain : bool) :
  net w = NetResponse r -> http_error r = false -> content r = NotJSON plain ->
  exists e,
    issubclass (exn_cls e) ValueError = true /\
    issubclass (exn_cls e) RequestException = negb plain /\
    extract w =
      extract_failed w
        (if plain then "Extract: JSON parse failed: %s" else "Extract: request failed: %s") e.
Proof.
  intros Hnet Hstatus Hbody. rewrite extract_run, Hnet, Hstatus, Hbody.
  destruct plain.
  - exists (mkExn JSONDecodeError "Expecting value"). by repeat split.
  - exists (mkExn RequestsJSONDecodeError "Expecting value"). by repeat split.
Qed.

Lemma X6_witness :
  let w := with_net Sample.world0 (NetResponse (mkResponse 200 (NotJSON false))) in
  exists e,
    issubclass (exn_cls e) ValueError = true /\
    issubclass (exn_cls e) RequestException = negb false /\
    extract w = extract_failed w "Extract: request failed: %s" e.
Proof.
  exact (X6_json_failure_is_reported_by_the_first_clause
           (with_net Sample.world0 (NetResponse (mkResponse 200 (NotJSON false))))
           (mkResponse 200 (NotJSON false)) false eq_refl eq_refl eq_refl).
Defined.

(** ** [transform] *)

(** The conversion returns exactly when the three fields can be read and the
    timestamp has a date. *)
Lemma conversion_returns (record : pyval) (ts : Z) (lat lon : spec_float)
    (dt : Datetime.datetime) :
  field_timestamp record = Ret ts -> field_latitude record = Ret lat ->
  field_longitude record = Ret lon -> Datetime.fromtimestamp_utc ts = Ret dt ->
  conversion record = Ret (ts, lat, lon, dt).
Proof.
  unfold conversion, field_timestamp, field_latitude, field_longitude.
  intros -> Hlat Hlon Hdt. cbn [and_then].
  destruct (getitem record "iss_position") as [pos|e]; [|discriminate].
  cbn [and_then] in *. rewrite Hlat, Hlon. cbn [and_then]. by rewrite Hdt.
Qed.

Lemma fromtimestamp_utc_returns (ts : Z) (dt : Datetime.datetime) :
  Datetime.fromtimestamp_utc ts = Ret dt ->
  Datetime.MIN_TIMESTAMP <= ts <= Datetime.MAX_TIMESTAMP /\ dt = Datetime.gmtime ts.
Proof.
  intros Hdt.
  destruct (decide (Datetime.MIN_TIMESTAMP <= ts <= Datetime.MAX_TIMESTAMP)) as [Hin|Hout].
  - split; [exact Hin|].
    rewrite (DatetimeFacts.fromtimestamp_utc_in_range ts Hin) in Hdt. congruence.
  - apply DatetimeFacts.fromtimestamp_utc_out_of_range in Hout.
    rewrite Hdt in Hout. discriminate.
Qed.

(** X7.  [transform] does nothing but compute and log: files, permissions,
    network and requests are as before, and the log has two more records,
    the announcement and the outcome. *)
Theorem X7_transform_only_logs (record : pyval) (w : world) :
  let w' := snd (transform record w) in
  fs w' = fs w /\ sent w' = sent w /\ net w' = net w /\ handlers w' = handlers w /\
  exists outcome,
    log w' = log w ++ [mkLog INFO "Transform: converting record to tabular format" [];
                       outcome].
Proof.
  cbv zeta. rewrite transform_run. unfold transform_started.
  destruct (truthy record).
  - destruct (conversion record) as [[[[ts lat] lon] dt]|e]; cbn;
      (repeat split; eexists; by rewrite <- app_assoc).
  - cbn. repeat split. eexists. by rewrite <- app_assoc.
Qed.

(** X8.  [transform] returns a row exactly when the record is truthy, each of
    the three fields can be read and coerced, and the timestamp lies between
    0001-01-01 00:00:00 and 9999-12-31 23:59:59 UTC; in every other case it
    returns the empty frame. *)
Theorem X8_transform_row_iff (record : pyval) (w : world) :
  exists df w',
    transform record w = (Ret df, w') /\
    (rows df <> [] <->
     truthy record = true /\
     exists ts lat lon,
       field_timestamp record = Ret ts /\ field_latitude record = Ret lat /\
       field_longitude record = Ret lon /\
       Datetime.MIN_TIMESTAMP <= ts <= Datetime.MAX_TIMESTAMP) /\
    (rows df = [] -> df = empty_frame).
Proof.
  rewrite transform_run. destruct (truthy record).
  - destruct (conversion record) as [[[[ts lat] lon] dt]|e] eqn:Hconv.
    + eexists _, _. split; [reflexivity|]. split; [|discriminate].
      apply conversion_fields in Hconv as (Hts & Hlat & Hlon & Hdt).
      apply fromtimestamp_utc_returns in Hdt as [Hrange _].
      split; [|discriminate]. intros _. split; [reflexivity|]. by exists ts, lat, lon.
    + eexists _, _. split; [reflexivity|]. split; [|reflexivity].
      split; [by intros []|]. intros (_ & ts & lat & lon & Hts & Hlat & Hlon & Hrange).
      exfalso.
      rewrite (conversion_returns record ts lat lon (Datetime.gmtime ts) Hts Hlat Hlon
                 (DatetimeFacts.fromtimestamp_utc_in_range ts Hrange)) in Hconv.
      discriminate.
  - eexists _, _. split; [reflexivity|]. split; [|reflexivity].
    split; [by intros [] | by intros []].
Qed.

(** X9.  Whatever the input, a frame that [transform] returns has at most one
    row, and that row is consistent: the columns are those of the schema,
    [timestamp_unix] is the [int] of the timestamp of the record and lies in
    the range of [datetime], [timestamp_utc] is the [strftime] text of
    exactly that count of seconds, and the coordinates are the [float]s of
    the fields of the record. *)
Theorem X9_transform_row_is_consistent
    (record : pyval) (w w' : world) (df : DataFrame) (r : list cell) :
  transform record w = (Ret df, w') -> In r (rows df) ->
  df = mkDataFrame SCHEMA [r] /\
  exists ts lat lon,
    r = normalized_row ts
          (Datetime.strftime_ymd_hms (pads_year w) (Datetime.gmtime ts)) lat lon /\
    field_timestamp record = Ret ts /\ field_latitude record = Ret lat /\
    field_longitude record = Ret lon /\
    Datetime.MIN_TIMESTAMP <= ts <= Datetime.MAX_TIMESTAMP /\
    Datetime.timegm (Datetime.gmtime ts) = ts.
Proof.
  rewrite transform_run. destruct (truthy record).
  - destruct (conversion record) as [[[[ts lat] lon] dt]|e] eqn:Hconv.
    + intros [= <- _] [<-|[]].
      apply conversion_fields in Hconv as (Hts & Hlat & Hlon & Hdt).
      apply fromtimestamp_utc_returns in Hdt as [Hrange ->].
      split; [reflexivity|]. exists ts, lat, lon.
      repeat split; try assumption; try lia. apply DatetimeFacts.timegm_gmtime.
    + by intros [= <- _] [].
  - by intros [= <- _] [].
Qed.

Lemma X9_witness :
  transform Sample.record Sample.world0 =
    (Ret Sample.frame, snd (transform Sample.record Sample.world0)) /\
  In Sample.row (rows Sample.frame) /\
  Sample.frame = mkDataFrame SCHEMA [Sample.row] /\
  exists ts lat lon,
    Sample.row = normalized_row ts
          (Datetime.strftime_ymd_hms (pads_year Sample.world0) (Datetime.gmtime ts))
          lat lon /\
    field_timestamp Sample.record = Ret ts /\ field_latitude Sample.record = Ret lat /\
    field_longitude Sample.record = Ret lon /\
    Datetime.MIN_TIMESTAMP <= ts <= Datetime.MAX_TIMESTAMP /\
    Datetime.timegm (Datetime.gmtime ts) = ts.
Proof.
  assert (Hrun : transform Sample.record Sample.world0 =
                 (Ret Sample.frame, snd (transform Sample.record Sample.world0)))
    by (vm_compute; reflexivity).
  assert (Hin : In Sample.row (rows Sample.frame)) by (left; reflexivity).
  split; [exact Hrun|]. split; [exact Hin|].
  exact (X9_transform_row_is_consistent Sample.record Sample.world0 _ Sample.frame
           Sample.row Hrun Hin).
Defined.

(** X10.  A record that is not a mapping gives no row and no exception: a
    falsy one (None, zero, an empty string or list) is taken for an empty
    record, with a warning; a truthy one fails at [record["timestamp"]] with
    a [TypeError], which is logged as the cause. *)
Theorem X10_transform_of_a_non_mapping (record : pyval) (w : world) :
  (forall d, record <> PDict d) ->
  exists cause,
    transform record w =
      (Ret empty_frame,
       with_log w (log w ++ [mkLog INFO "Transform: converting record to tabular format" [];
                             cause])) /\
    ((truthy record = false /\
      cause = mkLog WARNING "Transform: empty record; returning empty DataFrame" []) \/
     (truthy record = true /\
      exists msg, cause = mkLog ERROR "Transform: failed: %s" [ArgExn (mkExn TypeError msg)])).
Proof.
  intros Hnot. rewrite transform_run. unfold transform_started.
  destruct (truthy record) eqn:Htruthy.
  - assert (Hconv : exists msg, conversion record = Raise (mkExn TypeError msg)).
    { unfold conversion. destruct record; try (eexists; reflexivity).
      by destruct (Hnot d). }
    destruct Hconv as [msg ->]. eexists. rewrite <- app_assoc.
    split; [reflexivity|]. right. split; [reflexivity|]. by exists msg.
  - eexists. rewrite <- app_assoc. split; [reflexivity|]. left. by split.
Qed.

Lemma X10_witness :
  (forall d, PList [PInt 1] <> PDict d) /\
  exists cause,
    transform (PList [PInt 1]) Sample.world0 =
      (Ret empty_frame,
       with_log Sample.world0
         (log Sample.world0 ++
          [mkLog INFO "Transform: converting record to tabular format" []; cause])) /\
    ((truthy (PList [PInt 1]) = false /\
      cause = mkLog WARNING "Transform: empty record; returning empty DataFrame" []) \/
     (truthy (PList [PInt 1]) = true /\
      exists msg, cause = mkLog ERROR "Transform: failed: %s" [ArgExn (mkExn TypeError msg)])).
Proof.
  assert (Hnot : forall d, PList [PInt 1] <> PDict d) by (intros d; discriminate).
  split; [exact Hnot|].
  exact (X10_transform_of_a_non_mapping (PList [PInt 1]) Sample.world0 Hnot).
Defined.

(** X11.  [transform] reads two keys of the record and no other: two
    non-empty mappings that agree on [timestamp] and on [iss_position] are
    transformed alike, frame and log. *)
Theorem X11_transform_reads_two_keys (d1 d2 : gmap string pyval) (w : world) :
  d1 <> ∅ -> d2 <> ∅ ->
  d1 !! "timestamp"%string = d2 !! "timestamp"%string ->
  d1 !! "iss_position"%string = d2 !! "iss_position"%string ->
  transform (PDict d1) w = transform (PDict d2) w.
Proof.
  intros H1 H2 Hts Hpos. rewrite !transform_run. cbn [truthy].
  rewrite !bool_decide_eq_false_2 by assumption. cbn [negb].
  assert (Hconv : conversion (PDict d1) = conversion (PDict d2)).
  { unfold conversion. cbn [getitem]. by rewrite Hts, Hpos. }
  by rewrite Hconv.
Qed.

Lemma X11_witness :
  transform Sample.iss_body Sample.world0 = transform Sample.record Sample.world0.
Proof.
  apply (X11_transform_reads_two_keys
           {[ "message" := PStr "success";
              "timestamp" := PInt 1700000000;
              "iss_position" := PDict {[ "latitude" := PStr "10.5";
                                         "longitude" := PStr "-20.25" ]} ]}
           {[ "timestamp" := PInt 1700000000;
              "iss_position" := PDict {[ "latitude" := PStr "10.5";
                                         "longitude" := PStr "-20.25" ]} ]}
           Sample.world0).
  - intros H. apply (f_equal (fun m => m !! "timestamp"%string)) in H.
    vm_compute in H. discriminate.
  - intros H. apply (f_equal (fun m => m !! "timestamp"%string)) in H.
    vm_compute in H. discriminate.
  - vm_compute. reflexivity.
  - vm_compute. reflexivity.
Defined.
(** ** [load] *)

Lemma open_error_None (f : filesystem) (path : string) :
  open_error f path = None <->
  (file_key f path ∉ unwritable f) /\ (nodes f !! file_key f path <> Some Directory).
Proof.
  unfold open_error. case_bool_decide as Hin.
  - split; [discriminate | by intros [Hnot _]].
  - destruct (nodes f !! file_key f path) as [[s|]|]; split; try done.
    by intros [_ Hd].
Qed.

(** What [load] leaves alone, whatever the path. *)
Lemma load_frame (df : option DataFrame) (path : string) (w : world) :
  net (snd (load df path w)) = net w /\
  unwritable (fs (snd (load df path w))) = unwritable (fs w) /\
  same_as_snapshot (fs (snd (load df path w))) = same_as_snapshot (fs w) /\
  (forall p, p <> file_key (fs w) path ->
     nodes (fs (snd (load df path w))) !! p = nodes (fs w) !! p) /\
  exists outcome, log (snd (load df path w)) = log w ++ [outcome].
Proof.
  assert (Hsame : forall l,
            let w' := with_log w (log w ++ [l]) in
            net w' = net w /\
            unwritable (fs w') = unwritable (fs w) /\
            same_as_snapshot (fs w') = same_as_snapshot (fs w) /\
            (forall p, p <> file_key (fs w) path -> nodes (fs w') !! p = nodes (fs w) !! p) /\
            exists outcome, log w' = log w ++ [outcome]).
  { intros l. cbn. repeat (split; [done|]). by eexists. }
  destruct df as [d|]; [|rewrite load_none; apply Hsame].
  destruct (df_empty d) eqn:Hempty; [rewrite load_nothing by exact Hempty; apply Hsame|].
  destruct (open_error (fs w) path) as [e|] eqn:Hopen.
  { rewrite (load_open_fails d path w e Hempty Hopen). apply Hsame. }
  rewrite (load_run d path w Hempty Hopen). cbv zeta.
  destruct (Path.as_text path).
  - cbn. do 3 (split; [done|]).
    split; [intros p Hp; by rewrite lookup_insert_ne | by eexists].
  - destruct (foreign w path _ _) as [urls [s|] [e|]]; cbn [fetched stored failure];
      destruct (Path.has_colon path); cbn; do 3 (split; [done|]);
      (split; [intros p Hp; by rewrite ?lookup_insert_ne | by eexists]).
Qed.

(** The same for a path without a colon: no request is sent. *)
Lemma load_sent (df : option DataFrame) (path : string) (w : world) :
  Path.has_colon path = false -> sent (snd (load df path w)) = sent w.
Proof.
  intros Hcolon. destruct df as [d|]; [|by rewrite load_none].
  destruct (df_empty d) eqn:Hempty; [by rewrite load_nothing|].
  destruct (open_error (fs w) path) as [e|] eqn:Hopen.
  { by rewrite (load_open_fails d path w e Hempty Hopen). }
  rewrite (load_run d path w Hempty Hopen). cbv zeta. rewrite Hcolon.
  destruct (Path.as_text path); [reflexivity|].
  by destruct (foreign w path _ _) as [urls [s|] [e|]].
Qed.

(** The same for a path that is written as text: what the destination held
    stays in front. *)
Lemma load_keeps_data (df : option DataFrame) (path : string) (w : world) :
  Path.as_text path = true ->
  exists suffix,
    file_data (fs (snd (load df path w))) (file_key (fs w) path)
      = file_data (fs w) (file_key (fs w) path) +:+ suffix.
Proof.
  intros Htext.
  assert (Hsame : forall l,
            exists suffix,
              file_data (fs (with_log w (log w ++ [l]))) (file_key (fs w) path)
                = file_data (fs w) (file_key (fs w) path) +:+ suffix).
  { intros l. exists "". by rewrite string_app_nil_r. }
  destruct df as [d|]; [|rewrite load_none; apply Hsame].
  destruct (df_empty d) eqn:Hempty; [rewrite load_nothing by exact Hempty; apply Hsame|].
  destruct (open_error (fs w) path) as [e|] eqn:Hopen.
  { rewrite (load_open_fails d path w e Hempty Hopen). apply Hsame. }
  rewrite (load_run d path w Hempty Hopen). cbv zeta. rewrite Htext.
  eexists. cbn [snd fs with_log with_fs]. apply file_data_insert.
Qed.

Lemma as_text_no_colon (path : string) :
  Path.as_text path = true -> Path.has_colon path = false.
Proof.
  unfold Path.as_text. intros Htext. apply andb_true_iff in Htext as [Hcolon _].
  by apply negb_true_iff in Hcolon.
Qed.

(** X12.  [load] changes at most the destination: every other file and the
    permissions are as before, and the log has exactly one more record -- in
    every case, also when nothing is written or the write fails.  A
    destination that is written as text -- its path has no colon and no
    extension of a compressed format -- is changed only by adding at its end,
    what it held is still there in front, and no request is sent. *)
Theorem X12_load_changes_the_destination_only
    (df : option DataFrame) (path : string) (w : world) :
  let k := file_key (fs w) path in
  let w' := snd (load df path w) in
  (forall p, p <> k -> nodes (fs w') !! p = nodes (fs w) !! p) /\
  unwritable (fs w') = unwritable (fs w) /\
  (exists outcome, log w' = log w ++ [outcome]) /\
  (Path.as_text path = true ->
   sent w' = sent w /\
   exists suffix, file_data (fs w') k = file_data (fs w) k +:+ suffix).
Proof.
  cbv zeta. destruct (load_frame df path w) as (_ & H2 & _ & H3 & H4).
  repeat split; try done.
  - apply load_sent. by apply as_text_no_colon.
  - by apply load_keeps_data.
Qed.

(** One more row on a log that is there. *)
Lemma load_log_step (r : list cell) (rs : list (list cell)) (path : string) (w : world) :
  Path.as_given path = true ->
  nodes (fs w) !! file_key (fs w) path = Some (File (csv_log rs)) ->
  open_error (fs w) path = None ->
  let w' := snd (load (Some (mkDataFrame SCHEMA [r])) path w) in
  nodes (fs w') !! file_key (fs w) path = Some (File (csv_log (rs ++ [r]))) /\
  open_error (fs w') path = None /\
  file_key (fs w') path = file_key (fs w) path.
Proof.
  intros Hgiven Hlog Hopen. cbv zeta. rewrite load_run_as_given by done.
  cbn [snd with_log with_fs fs]. unfold appended. cbv zeta.
  rewrite file_key_with_nodes. split; [|split; [|reflexivity]].
  - cbn [nodes with_nodes]. rewrite lookup_insert_eq. unfold file_data. rewrite Hlog.
    rewrite bool_decide_eq_true_2 by (by eexists). cbn [negb].
    unfold Csv.to_text. cbn [rows map Csv.concat].
    change ("" +:+ Csv.row_text r +:+ "") with (Csv.row_text r +:+ "").
    by rewrite string_app_nil_r, csv_log_snoc.
  - apply open_error_None. apply open_error_None in Hopen as [Hin _].
    rewrite file_key_with_nodes. cbn [nodes unwritable with_nodes].
    split; [exact Hin|]. rewrite lookup_insert_eq. discriminate.
Qed.

(** The first row, on a destination that is not there. *)
Lemma load_log_first (r : list cell) (path : string) (w : world) :
  Path.as_given path = true ->
  nodes (fs w) !! file_key (fs w) path = None ->
  open_error (fs w) path = None ->
  let w' := snd (load (Some (mkDataFrame SCHEMA [r])) path w) in
  nodes (fs w') !! file_key (fs w) path = Some (File (csv_log [r])) /\
  open_error (fs w') path = None /\
  file_key (fs w') path = file_key (fs w) path.
Proof.
  intros Hgiven Habsent Hopen. cbv zeta. rewrite load_run_as_given by done.
  cbn [snd with_log with_fs fs]. unfold appended. cbv zeta.
  rewrite file_key_with_nodes. split; [|split; [|reflexivity]].
  - cbn [nodes with_nodes]. rewrite lookup_insert_eq. unfold file_data. rewrite Habsent.
    rewrite bool_decide_eq_false_2 by (by intros [x Hx]). reflexivity.
  - apply open_error_None. apply open_error_None in Hopen as [Hin _].
    rewrite file_key_with_nodes. cbn [nodes unwritable with_nodes].
    split; [exact Hin|]. rewrite lookup_insert_eq. discriminate.
Qed.

Lemma load_log_steps (rs0 rs : list (list cell)) (path : string) (k : string) (w : world) :
  Path.as_given path = true ->
  file_key (fs w) path = k ->
  nodes (fs w) !! k = Some (File (csv_log rs0)) ->
  open_error (fs w) path = None ->
  nodes (fs (fold_left (fun w r => snd (load (Some (mkDataFrame SCHEMA [r])) path w)) rs w))
    !! k = Some (File (csv_log (rs0 ++ rs))).
Proof.
  intros Hgiven. revert rs0 w. induction rs as [|r rs IH]; intros rs0 w Hk Hlog Hopen.
  - by rewrite app_nil_r.
  - cbn [fold_left]. subst k.
    destruct (load_log_step r rs0 path w Hgiven Hlog Hopen) as (Hlog' & Hopen' & Hk').
    rewrite (IH (rs0 ++ [r]) _ Hk' Hlog' Hopen'). by rewrite <- app_assoc.
Qed.

(** [load] of one row keeps the destination a log, one row longer. *)
Lemma load_keeps_log (r : list cell) (rs : list (list cell)) (path : string) (w : world) :
  Path.as_given path = true ->
  holds_log (fs w) (file_key (fs w) path) rs ->
  open_error (fs w) path = None ->
  let w' := snd (load (Some (mkDataFrame SCHEMA [r])) path w) in
  holds_log (fs w') (file_key (fs w) path) (rs ++ [r]) /\
  open_error (fs w') path = None.
Proof.
  unfold holds_log. intros Hgiven Hlog Hopen. cbv zeta. destruct rs as [|r0 rs].
  - destruct (load_log_first r path w Hgiven Hlog Hopen) as (Hlog' & Hopen' & _). by split.
  - destruct (load_log_step r (r0 :: rs) path w Hgiven Hlog Hopen) as (Hlog' & Hopen' & _).
    by split.
Qed.

(** X13.  Run after run, the header is written once.  For a destination
    whose path [to_csv] hands to [open] as it is -- no tilde in front, no
    colon, no extension of a compressed format -- and that is not there at
    first, the [load] of one row after another leaves the header line
    followed by the lines of all the rows, in order -- for rows as
    [transform] builds them, one header line and as many lines of data as
    there were runs. *)
Theorem X13_repeated_loads_write_one_header
    (r : list cell) (rs : list (list cell)) (path : string) (w : world) :
  Path.as_given path = true ->
  nodes (fs w) !! file_key (fs w) path = None ->
  open_error (fs w) path = None ->
  let k := file_key (fs w) path in
  let w' := fold_left (fun w r => snd (load (Some (mkDataFrame SCHEMA [r])) path w))
                      (r :: rs) w in
  nodes (fs w') !! k = Some (File (csv_log (r :: rs))) /\
  (Forall well_formed_row (r :: rs) ->
   header_lines (file_data (fs w') k) = 1%nat /\
   data_lines (file_data (fs w') k) = S (List.length rs)).
Proof.
  intros Hgiven Habsent Hopen. cbv zeta. cbn [fold_left].
  destruct (load_log_first r path w Hgiven Habsent Hopen) as (Hlog & Hopen' & Hk).
  pose proof (load_log_steps [r] rs path _ _ Hgiven Hk Hlog Hopen') as Hall.
  change ([r] ++ rs) with (r :: rs) in Hall. split; [exact Hall|].
  intros Hrows. unfold file_data. rewrite Hall.
  exact (TextFacts.csv_log_lines (r :: rs) Hrows).
Qed.

Lemma X13_witness :
  let w' := fold_left (fun w r => snd (load (Some (mkDataFrame SCHEMA [r])) "iss.csv" w))
                      [Sample.row; Sample.row] Sample.world0 in
  Path.as_given "iss.csv" = true /\
  nodes (fs Sample.world0) !! file_key (fs Sample.world0) "iss.csv" = None /\
  open_error (fs Sample.world0) "iss.csv" = None /\
  nodes (fs w') !! file_key (fs Sample.world0) "iss.csv"
    = Some (File (csv_log [Sample.row; Sample.row])).
Proof.
  split; [vm_compute; reflexivity|].
  split; [vm_compute; reflexivity|]. split; [vm_compute; reflexivity|].
  refine (proj1 (X13_repeated_loads_write_one_header Sample.row [Sample.row] "iss.csv"
                   Sample.world0 _ _ _)); vm_compute; reflexivity.
Defined.

(** ** [main] *)

Lemma main_started_fields (path : string) (w : world) :
  net (main_started path w) = net w /\ fs (main_started path w) = fs w /\
  sent (main_started path w) = sent w /\ pads_year (main_started path w) = pads_year w /\
  log (main_started path w) =
    log w ++ [mkLog INFO "Starting ISS ETL; output=%s" [ArgStr path]].
Proof. unfold main_started. by destruct (Nat.eqb (handlers w) 0). Qed.

Lemma main_started_redirects (path : string) (w : world) :
  redirects (main_started path w) = redirects w.
Proof. unfold main_started. by destruct (Nat.eqb (handlers w) 0). Qed.

Lemma main_usage_run (argv : list string) (w : world) :
  List.length argv <> 2%nat ->
  fst (main argv w) = Ret 2 /\ sent (snd (main argv w)) = sent w /\
  fs (snd (main argv w)) = fs w.
Proof.
  intros Hlen. unfold main.
  destruct (Nat.eqb (List.length argv) 2) eqn:E; [apply Nat.eqb_eq in E; contradiction|].
  cbn [negb]. unfold bind, init_logger, logger_error, log_at, ret.
  by destruct (Nat.eqb (handlers w) 0).
Qed.

Lemma transform_frame (record : pyval) (w : world) :
  fs (snd (transform record w)) = fs w /\ sent (snd (transform record w)) = sent w /\
  net (snd (transform record w)) = net w.
Proof.
  rewrite transform_run. destruct (truthy record); [|by repeat split].
  destruct (conversion record) as [[[[ts lat] lon] dt]|e]; by repeat split.
Qed.

(** X14.  A run whose extraction fails -- no response, a 4xx or 5xx status, a
    body that is not JSON -- still goes through the three stages and ends
    with 0: the failure is logged as an error, [transform] warns of an empty
    record, [load] warns that there is nothing to write, and no file is
    created or changed; the requests sent are the one to the fixed address
    and those that redirects led to. *)
Theorem X14_main_after_a_failed_extraction (prog path : string) (w : world) :
  extraction_fails (net w) = true ->
  exists w' msg e,
    main [prog; path] w = (Ret 0, w') /\
    fs w' = fs w /\
    sent w' = sent w ++ ISS_URL :: redirects w /\
    log w' = log w ++
      [mkLog INFO "Starting ISS ETL; output=%s" [ArgStr path];
       mkLog INFO "Extract: requesting %s" [ArgStr ISS_URL];
       mkLog ERROR msg [ArgExn e];
       mkLog INFO "Transform: converting record to tabular format" [];
       mkLog WARNING "Transform: empty record; returning empty DataFrame" [];
       mkLog WARNING "Load: nothing to write (empty DataFrame)" [];
       mkLog INFO "Done." []].
Proof.
  intros Hfails.
  destruct (main_started_fields path w) as (Hnet & Hfs & Hsent & _ & Hlog).
  rewrite <- Hnet in Hfails.
  destruct (extract_handles_failures _ Hfails) as (msg & e & Hextract).
  destruct (main_completes prog path w _ _ Hextract) as (df & w2 & w3 & Ht & Hl & Hmain).
  rewrite transform_run in Ht. cbn [truthy] in Ht.
  rewrite bool_decide_eq_true_2 in Ht by reflexivity. cbn [negb] in Ht.
  injection Ht as <- <-.
  rewrite load_nothing in Hl by reflexivity. injection Hl as <-.
  eexists _, msg, e. split; [exact Hmain|].
  unfold transform_started, requested, main_started.
  destruct (Nat.eqb (handlers w) 0); cbn; (repeat split; by rewrite <- !app_assoc).
Qed.

Lemma X14_witness :
  let w := with_net Sample.world0 (NetFailure ConnectionFailed) in
  extraction_fails (net w) = true /\
  exists w' msg e,
    main ["iss.py"; "iss.csv"]%string w = (Ret 0, w') /\
    fs w' = fs w /\
    sent w' = sent w ++ ISS_URL :: redirects w /\
    log w' = log w ++
      [mkLog INFO "Starting ISS ETL; output=%s" [ArgStr "iss.csv"];
       mkLog INFO "Extract: requesting %s" [ArgStr ISS_URL];
       mkLog ERROR msg [ArgExn e];
       mkLog INFO "Transform: converting record to tabular format" [];
       mkLog WARNING "Transform: empty record; returning empty DataFrame" [];
       mkLog WARNING "Load: nothing to write (empty DataFrame)" [];
       mkLog INFO "Done." []].
Proof.
  split; [reflexivity|].
  apply (X14_main_after_a_failed_extraction "iss.py" "iss.csv"
           (with_net Sample.world0 (NetFailure ConnectionFailed))).
  reflexivity.
Defined.

(** X15.  A run that goes well appends the reading.  With a response that is
    no error and parses to a JSON object whose three fields can be read, a
    timestamp in the range of [datetime], a snapshot that can be opened, and
    a destination that can be opened, whose path [to_csv] hands to [open] as
    it is and that is another file than the snapshot: [main] returns 0, the
    snapshot holds the dump, and the destination holds what it held, then the
    header line if it was not there, then the line of the row (timestamp, its
    UTC text, the two coordinates); the requests sent are the one to the
    fixed address and those that redirects led to. *)
Theorem X15_main_appends_the_reading
    (prog path : string) (w : world) (r : response) (d : gmap string pyval)
    (dump : string) (ts : Z) (lat lon : spec_float) :
  net w = NetResponse r -> http_error r = false -> content r = JSON (PDict d) dump ->
  open_error (fs w) SNAPSHOT = None -> open_error (fs w) path = None ->
  Path.as_given path = true ->
  file_key (fs w) path <> SNAPSHOT ->
  field_timestamp (PDict d) = Ret ts -> field_latitude (PDict d) = Ret lat ->
  field_longitude (PDict d) = Ret lon ->
  Datetime.MIN_TIMESTAMP <= ts <= Datetime.MAX_TIMESTAMP ->
  exists w',
    main [prog; path] w = (Ret 0, w') /\
    file_data (fs w') SNAPSHOT = dump /\
    file_data (fs w') path =
      file_data (fs w) path +:+
      ((if bool_decide (is_Some (nodes (fs w) !! path)) then "" else HEADER_LINE) +:+
       Csv.row_text
         (normalized_row ts
            (Datetime.strftime_ymd_hms (pads_year w) (Datetime.gmtime ts)) lat lon)) /\
    sent w' = sent w ++ ISS_URL :: redirects w.
Proof.
  intros Hnet Hstatus Hbody Hsnap Hdest Hgiven Hother Hts Hlat Hlon Hrange.
  pose proof (file_key_other _ _ Hother) as Hkey.
  assert (Hdiff : path <> SNAPSHOT) by (rewrite <- Hkey; exact Hother).
  destruct (main_started_fields path w) as (Hnet' & Hfs' & Hsent' & Hpad' & _).
  pose proof (main_started_redirects path w) as Hred'.
  assert (Hextract : extract (main_started path w) =
            (Ret (PDict d),
             with_log (snapshot_written (main_started path w) dump)
               (log (requested (main_started path w)) ++
                [mkLog INFO "Extract: received message=%s"
                   [ArgVal (default PNone (d !! "message"%string))]]))).
  { rewrite extract_run, Hnet', Hnet, Hstatus, Hbody, Hfs', Hsnap. reflexivity. }
  destruct (main_completes prog path w _ _ Hextract) as (df & w2 & w3 & Ht & Hl & Hmain).
  rewrite transform_run in Ht.
  assert (Htruthy : truthy (PDict d) = true).
  { cbn [truthy]. apply negb_true_iff, bool_decide_eq_false_2. intros ->.
    unfold field_timestamp in Hts. cbn in Hts. discriminate. }
  rewrite Htruthy in Ht.
  rewrite (conversion_returns (PDict d) ts lat lon (Datetime.gmtime ts) Hts Hlat Hlon
             (DatetimeFacts.fromtimestamp_utc_in_range ts Hrange)) in Ht.
  injection Ht as <- <-.
  match type of Hl with load (Some ?f) path ?w2 = _ =>
    assert (Hfs2 : fs w2 = with_nodes (fs w) (<[SNAPSHOT := File dump]> (nodes (fs w))))
      by (unfold snapshot_written; cbn [fs with_log with_fs]; by rewrite Hfs');
    assert (Hkey2 : file_key (fs w2) path = path)
      by (by rewrite Hfs2, file_key_with_nodes);
    assert (Hdest2 : open_error (fs w2) path = None);
    [ apply open_error_None; rewrite Hkey2, Hfs2;
      apply open_error_None in Hdest as [Hin Hdir]; rewrite Hkey in Hin, Hdir;
      cbn [nodes unwritable with_nodes]; split; [exact Hin | by rewrite lookup_insert_ne]
    | pose proof (load_appends f path w2 eq_refl Hgiven Hdest2) as Happ;
      destruct (load_frame (Some f) path w2) as (_ & _ & _ & Hrest & _);
      pose proof (load_sent (Some f) path w2
                    (as_text_no_colon path (as_given_as_text path Hgiven))) as Hsent3 ]
  end.
  cbv zeta in Happ. rewrite Hkey2 in Happ, Hrest.
  rewrite Hl in Happ, Hsent3, Hrest. cbn [snd] in Happ, Hsent3, Hrest.
  eexists. split; [exact Hmain|]. cbn [fs sent with_log].
  split; [|split].
  - unfold file_data. rewrite (Hrest SNAPSHOT) by congruence.
    rewrite Hfs2. cbn [nodes with_nodes]. by rewrite lookup_insert_eq.
  - rewrite Happ, header_text_schema. rewrite Hfs2. unfold file_data.
    cbn [nodes with_nodes].
    rewrite lookup_insert_ne by congruence.
    cbn [rows map Csv.concat pads_year with_log]. rewrite string_app_nil_r.
    unfold snapshot_written, requested. cbn [pads_year with_fs with_sent with_log].
    by destruct (Nat.eqb (handlers w) 0).
  - rewrite Hsent3. unfold snapshot_written, requested.
    cbn [sent with_fs with_sent with_log redirects]. by rewrite Hsent', Hred'.
Qed.

Lemma X15_witness :
  exists w',
    main ["iss.py"; "iss.csv"]%string Sample.world0 = (Ret 0, w') /\
    file_data (fs w') SNAPSHOT = Sample.iss_dump /\
    file_data (fs w') "iss.csv" =
      file_data (fs Sample.world0) "iss.csv" +:+
      ((if bool_decide (is_Some (nodes (fs Sample.world0) !! "iss.csv"%string))
        then "" else HEADER_LINE) +:+
       Csv.row_text
         (normalized_row 1700000000
            (Datetime.strftime_ymd_hms (pads_year Sample.world0)
               (Datetime.gmtime 1700000000)) Sample.lat Sample.lon)) /\
    sent w' = sent Sample.world0 ++ ISS_URL :: redirects Sample.world0.
Proof.
  refine (X15_main_appends_the_reading "iss.py" "iss.csv" Sample.world0
            (mkResponse 200 (JSON Sample.iss_body Sample.iss_dump)) _ Sample.iss_dump
            1700000000 Sample.lat Sample.lon eq_refl eq_refl eq_refl _ _ _ _ _ _ _ _);
    try (vm_compute; reflexivity).
  - discriminate.
  - vm_compute. split; discriminate.
Defined.

(** X16.  The exit status tells the three ways a run can end: 2 exactly when
    the argument vector does not have two entries, 1 exactly when it has and
    an exception leaves [extract], 0 exactly when it has and [extract]
    returns -- whatever [transform] and [load] then meet. *)
Theorem X16_exit_status (argv : list string) (w : world) :
  let code := fst (exit_status argv w) in
  let extraction := fst (extract (main_started (nth 1 argv ""%string) w)) in
  (code = 2 <-> List.length argv <> 2%nat) /\
  (code = 1 <-> List.length argv = 2%nat /\ returns extraction = false) /\
  (code = 0 <-> List.length argv = 2%nat /\ returns extraction = true).
Proof.
  cbv zeta. destruct (decide (List.length argv = 2%nat)) as [Hlen|Hlen].
  - destruct argv as [|prog [|path [|x argv]]]; try discriminate. cbn [nth].
    unfold exit_status.
    destruct (extract (main_started path w)) as [[record|e] w1] eqn:Hextract.
    + destruct (main_completes prog path w record w1 Hextract) as (df & w2 & w3 & _ & _ & ->).
      cbn. repeat split; try done; intros []; done.
    + rewrite (main_propagates prog path w e w1 Hextract).
      cbn. repeat split; try done; intros []; done.
  - destruct (main_usage_run argv w Hlen) as (Hmain & _). unfold exit_status.
    destruct (main argv w) as [[code|e] w']; cbn in Hmain; [|discriminate].
    injection Hmain as ->. cbn. repeat split; try done; intros []; done.
Qed.

Lemma main_frame (argv : list string) (w : world) :
  forall p, p <> SNAPSHOT -> p <> nth 1 argv ""%string ->
    nodes (fs (snd (main argv w))) !! p = nodes (fs w) !! p.
Proof.
  destruct (Nat.eqb (List.length argv) 2) eqn:Hlen.
  - apply Nat.eqb_eq in Hlen.
    destruct argv as [|prog [|path [|x argv]]]; try discriminate. cbn [nth].
    destruct (main_started_fields path w) as (_ & Hfs & _).
    destruct (extract_frame (main_started path w)) as (_ & _ & _ & _ & Hf1).
    destruct (extract (main_started path w)) as [[record|e] w1] eqn:Hextract;
      cbn [snd] in Hf1.
    + destruct (main_completes prog path w record w1 Hextract)
        as (df & w2 & w3 & Ht & Hl & ->).
      destruct (transform_frame record w1) as (Hf2 & _).
      destruct (load_frame (Some df) path w2) as (_ & _ & _ & Hf3 & _).
      rewrite Ht in Hf2. rewrite Hl in Hf3. cbn [snd] in *.
      cbn [fs with_log].
      intros p Hsnap Hdest. rewrite Hf3, Hf2, Hf1, Hfs; [done..|].
      by destruct (file_key_cases (fs w2) path) as [-> | ->].
    + rewrite (main_propagates prog path w e w1 Hextract). cbn [snd].
      intros p Hsnap Hdest. by rewrite Hf1, Hfs.
  - apply Nat.eqb_neq in Hlen.
    destruct (main_usage_run argv w Hlen) as (_ & _ & Hfs).
    intros p _ _. by rewrite Hfs.
Qed.

Lemma main_sent (argv : list string) (w : world) :
  Path.has_colon (nth 1 argv ""%string) = false ->
  sent (snd (main argv w)) =
    (if Nat.eqb (List.length argv) 2 then sent w ++ ISS_URL :: redirects w else sent w).
Proof.
  intros Hcolon. destruct (Nat.eqb (List.length argv) 2) eqn:Hlen.
  - apply Nat.eqb_eq in Hlen.
    destruct argv as [|prog [|path [|x argv]]]; try discriminate. cbn [nth] in Hcolon.
    destruct (main_started_fields path w) as (_ & _ & Hsent & _ & _).
    pose proof (main_started_redirects path w) as Hred.
    destruct (extract_frame (main_started path w)) as (Hs1 & _).
    destruct (extract (main_started path w)) as [[record|e] w1] eqn:Hextract;
      cbn [snd] in Hs1.
    + destruct (main_completes prog path w record w1 Hextract)
        as (df & w2 & w3 & Ht & Hl & ->).
      destruct (transform_frame record w1) as (_ & Hs2 & _).
      pose proof (load_sent (Some df) path w2 Hcolon) as Hs3.
      rewrite Ht in Hs2. rewrite Hl in Hs3. cbn [snd] in *.
      cbn [sent with_log]. by rewrite Hs3, Hs2, Hs1, Hsent, Hred.
    + rewrite (main_propagates prog path w e w1 Hextract). cbn [snd].
      by rewrite Hs1, Hsent, Hred.
  - apply Nat.eqb_neq in Hlen.
    by destruct (main_usage_run argv w Hlen) as (_ & Hsent & _).
Qed.

(** X17.  A run calls [requests.get] once, for the fixed address, when it is
    given one argument -- whether the stages succeed, fail or raise -- and
    not at all otherwise, and there is no retry: with a destination whose
    path has no colon, so that [to_csv] cannot take it for a URL, the
    requests sent are the one to the fixed address and those that redirects
    led to. *)
Theorem X17_main_calls_the_service_at_most_once (argv : list string) (w : world) :
  Path.has_colon (nth 1 argv ""%string) = false ->
  sent (snd (main argv w)) =
    if Nat.eqb (List.length argv) 2 then sent w ++ ISS_URL :: redirects w else sent w.
Proof. exact (main_sent argv w). Qed.

Lemma X17_witness :
  Path.has_colon (nth 1 ["iss.py"; "iss.csv"]%string ""%string) = false /\
  sent (snd (main ["iss.py"; "iss.csv"]%string Sample.redirected_world)) =
    [ISS_URL; Sample.HTTPS_URL].
Proof.
  split; [reflexivity|].
  exact (X17_main_calls_the_service_at_most_once ["iss.py"; "iss.csv"]%string
           Sample.redirected_world eq_refl).
Defined.

(** X18.  A run touches two files at most, the snapshot and the destination
    named by its argument: every other file is, after [main], as it was
    before. *)
Theorem X18_main_touches_two_files (argv : list string) (w : world) (p : string) :
  p <> SNAPSHOT -> p <> nth 1 argv ""%string ->
  nodes (fs (snd (main argv w))) !! p = nodes (fs w) !! p.
Proof. exact (main_frame argv w p). Qed.

Lemma X18_witness :
  "notes.txt"%string <> SNAPSHOT /\
  "notes.txt"%string <> nth 1 ["iss.py"; "iss.csv"]%string ""%string /\
  nodes (fs (snd (main ["iss.py"; "iss.csv"]%string Sample.world0))) !! "notes.txt"%string
    = nodes (fs Sample.world0) !! "notes.txt"%string.
Proof.
  assert (H1 : "notes.txt"%string <> SNAPSHOT) by discriminate.
  assert (H2 : "notes.txt"%string <> nth 1 ["iss.py"; "iss.csv"]%string ""%string)
    by discriminate.
  split; [exact H1|]. split; [exact H2|].
  exact (X18_main_touches_two_files ["iss.py"; "iss.csv"]%string Sample.world0
           "notes.txt" H1 H2).
Defined.

(** A frame that [transform] returns is the empty frame or one row of the
    schema. *)
Lemma transform_frame_shape (record : pyval) (w w' : world) (df : DataFrame) :
  transform record w = (Ret df, w') ->
  df = empty_frame \/ exists r, df = mkDataFrame SCHEMA [r] /\ well_formed_row r.
Proof.
  intros Ht. pose proof (TextFacts.transform_rows_well_formed record w w' df Ht) as Hwf.
  rewrite transform_run in Ht. destruct (truthy record).
  - destruct (conversion record) as [[[[ts lat] lon] dt]|e]; injection Ht as <- _.
    + right. eexists. split; [reflexivity|]. by inversion Hwf.
    + by left.
  - injection Ht as <- _. by left.
Qed.

(** X19.  Every run keeps the destination a well-formed log.  Let the
    destination be a file other than the snapshot, that can be opened and
    whose path [to_csv] hands to [open] as it is.  If, before [main], it is
    not there or holds the header line and the lines of rows of the schema,
    then after [main] -- whatever the network answered, and also when an
    exception left [extract] -- it holds the same rows or one more, behind
    one header line, and can still be opened. *)
Theorem X19_main_keeps_the_log_well_formed
    (prog path : string) (rs : list (list cell)) (w : world) :
  Path.as_given path = true ->
  file_key (fs w) path <> SNAPSHOT ->
  open_error (fs w) path = None ->
  holds_log (fs w) path rs ->
  Forall well_formed_row rs ->
  let w' := snd (main [prog; path] w) in
  exists rs',
    holds_log (fs w') path rs' /\
    Forall well_formed_row rs' /\
    (rs' = rs \/ exists r, rs' = rs ++ [r]) /\
    open_error (fs w') path = None /\
    (rs' <> [] ->
     header_lines (file_data (fs w') path) = 1%nat /\
     data_lines (file_data (fs w') path) = List.length rs').
Proof.
  intros Hgiven Hother Hopen Hlog Hrows. cbv zeta.
  pose proof (file_key_other _ _ Hother) as Hkey.
  assert (Hdiff : path <> SNAPSHOT) by (rewrite <- Hkey; exact Hother).
  assert (Hcount : forall f rs', holds_log f path rs' -> Forall well_formed_row rs' ->
            rs' <> [] ->
            header_lines (file_data f path) = 1%nat /\
            data_lines (file_data f path) = List.length rs').
  { intros f rs' Hf Hwf Hne. unfold holds_log in Hf. unfold file_data.
    destruct rs' as [|r0 rs']; [done|]. rewrite Hf.
    exact (TextFacts.csv_log_lines _ Hwf). }
  destruct (main_started_fields path w) as (_ & Hfs & _).
  destruct (extract_frame (main_started path w)) as (_ & _ & Hu1 & Ha1 & Hf1).
  assert (Hsame : forall f, unwritable f = unwritable (fs w) ->
            same_as_snapshot f = same_as_snapshot (fs w) ->
            nodes f !! path = nodes (fs w) !! path ->
            holds_log f path rs /\ open_error f path = None /\ file_key f path = path).
  { intros f Hu Ha Hn.
    assert (Hk : file_key f path = path) by (unfold file_key in *; by rewrite Ha).
    split; [unfold holds_log; by rewrite Hn|]. split; [|exact Hk].
    apply open_error_None. apply open_error_None in Hopen as [Hin Hdir].
    rewrite Hkey in Hin, Hdir. by rewrite Hk, Hu, Hn. }
  destruct (extract (main_started path w)) as [[record|e] w1] eqn:Hextract;
    cbn [snd] in Hu1, Ha1, Hf1.
  - destruct (main_completes prog path w record w1 Hextract)
      as (df & w2 & w3 & Ht & Hl & ->).
    cbn [snd fs with_log].
    destruct (transform_frame record w1) as (Hf2 & _). rewrite Ht in Hf2. cbn [snd] in Hf2.
    destruct (Hsame (fs w2)) as (Hlog2 & Hopen2 & Hkey2).
    { by rewrite Hf2, Hu1, Hfs. }
    { by rewrite Hf2, Ha1, Hfs. }
    { by rewrite Hf2, Hf1, Hfs. }
    destruct (transform_frame_shape record w1 w2 df Ht) as [->|(r & -> & Hr)].
    + rewrite load_nothing in Hl by reflexivity. injection Hl as <-.
      exists rs. cbn [fs with_log].
      split; [exact Hlog2|]. split; [exact Hrows|]. split; [by left|].
      split; [exact Hopen2|]. by apply Hcount.
    + rewrite <- Hkey2 in Hlog2.
      destruct (load_keeps_log r rs path w2 Hgiven Hlog2 Hopen2) as [Hlog3 Hopen3].
      rewrite Hl in Hlog3, Hopen3. cbn [snd] in Hlog3, Hopen3. rewrite Hkey2 in Hlog3.
      assert (Hrows3 : Forall well_formed_row (rs ++ [r])).
      { apply Forall_app. split; [exact Hrows | by constructor]. }
      exists (rs ++ [r]).
      split; [exact Hlog3|]. split; [exact Hrows3|]. split; [right; by exists r|].
      split; [exact Hopen3|]. by apply Hcount.
  - rewrite (main_propagates prog path w e w1 Hextract). cbn [snd].
    destruct (Hsame (fs w1)) as (Hlog1 & Hopen1 & _).
    { by rewrite Hu1, Hfs. }
    { by rewrite Ha1, Hfs. }
    { by rewrite Hf1, Hfs. }
    exists rs. split; [exact Hlog1|]. split; [exact Hrows|]. split; [by left|].
    split; [exact Hopen1|]. by apply Hcount.
Qed.

Lemma X19_witness :
  let w' := snd (main ["iss.py"; "iss.csv"]%string Sample.world0) in
  Path.as_given "iss.csv" = true /\
  file_key (fs Sample.world0) "iss.csv" <> SNAPSHOT /\
  open_error (fs Sample.world0) "iss.csv" = None /\
  holds_log (fs Sample.world0) "iss.csv" [] /\
  exists rs',
    holds_log (fs w') "iss.csv" rs' /\
    Forall well_formed_row rs' /\
    (rs' = [] \/ exists r, rs' = [] ++ [r]) /\
    open_error (fs w') "iss.csv" = None /\
    (rs' <> [] ->
     header_lines (file_data (fs w') "iss.csv") = 1%nat /\
     data_lines (file_data (fs w') "iss.csv") = List.length rs').
Proof.
  assert (H0 : Path.as_given "iss.csv" = true) by (vm_compute; reflexivity).
  assert (H1 : file_key (fs Sample.world0) "iss.csv" <> SNAPSHOT) by discriminate.
  assert (H2 : open_error (fs Sample.world0) "iss.csv" = None) by (vm_compute; reflexivity).
  assert (H3 : holds_log (fs Sample.world0) "iss.csv" []) by (vm_compute; reflexivity).
  split; [exact H0|]. split; [exact H1|]. split; [exact H2|]. split; [exact H3|].
  exact (X19_main_keeps_the_log_well_formed "iss.py" "iss.csv" [] Sample.world0
           H0 H1 H2 H3 (List.Forall_nil well_formed_row)).
Defined.

(** X20.  When the destination is the snapshot file itself, the log does not
    grow: [extract] first replaces what the file held by the dump, and [load],
    finding the file there, adds the line of the row without a header.  After
    such a run the file holds the dump followed by one line, whatever it held
    before. *)
Theorem X20_main_on_the_snapshot_file
    (prog : string) (w : world) (r : response) (d : gmap string pyval)
    (dump : string) (ts : Z) (lat lon : spec_float) :
  net w = NetResponse r -> http_error r = false -> content r = JSON (PDict d) dump ->
  open_error (fs w) SNAPSHOT = None ->
  field_timestamp (PDict d) = Ret ts -> field_latitude (PDict d) = Ret lat ->
  field_longitude (PDict d) = Ret lon ->
  Datetime.MIN_TIMESTAMP <= ts <= Datetime.MAX_TIMESTAMP ->
  exists w',
    main [prog; SNAPSHOT] w = (Ret 0, w') /\
    file_data (fs w') SNAPSHOT =
      dump +:+
      Csv.row_text
        (normalized_row ts
           (Datetime.strftime_ymd_hms (pads_year w) (Datetime.gmtime ts)) lat lon).
Proof.
  intros Hnet Hstatus Hbody Hsnap Hts Hlat Hlon Hrange.
  destruct (main_started_fields SNAPSHOT w) as (Hnet' & Hfs' & _).
  assert (Hextract : extract (main_started SNAPSHOT w) =
            (Ret (PDict d),
             with_log (snapshot_written (main_started SNAPSHOT w) dump)
               (log (requested (main_started SNAPSHOT w)) ++
                [mkLog INFO "Extract: received message=%s"
                   [ArgVal (default PNone (d !! "message"%string))]]))).
  { rewrite extract_run, Hnet', Hnet, Hstatus, Hbody, Hfs', Hsnap. reflexivity. }
  destruct (main_completes prog SNAPSHOT w _ _ Hextract) as (df & w2 & w3 & Ht & Hl & Hmain).
  rewrite transform_run in Ht.
  assert (Htruthy : truthy (PDict d) = true).
  { cbn [truthy]. apply negb_true_iff, bool_decide_eq_false_2. intros ->.
    unfold field_timestamp in Hts. cbn in Hts. discriminate. }
  rewrite Htruthy in Ht.
  rewrite (conversion_returns (PDict d) ts lat lon (Datetime.gmtime ts) Hts Hlat Hlon
             (DatetimeFacts.fromtimestamp_utc_in_range ts Hrange)) in Ht.
  injection Ht as <- <-.
  match type of Hl with load (Some ?f) _ ?w2 = _ =>
    assert (Hfs2 : fs w2 = with_nodes (fs w) (<[SNAPSHOT := File dump]> (nodes (fs w))))
      by (unfold snapshot_written; cbn [fs with_log with_fs]; by rewrite Hfs');
    assert (Hdest2 : open_error (fs w2) SNAPSHOT = None);
    [ rewrite Hfs2; apply open_error_None; apply open_error_None in Hsnap as [Hin Hdir];
      rewrite file_key_snapshot in *;
      cbn [nodes unwritable with_nodes]; split; [exact Hin | rewrite lookup_insert_eq; discriminate]
    | pose proof (load_appends f SNAPSHOT w2 eq_refl eq_refl Hdest2) as Happ ]
  end.
  cbv zeta in Happ. rewrite file_key_snapshot in Happ.
  rewrite Hl in Happ. cbn [snd] in Happ.
  eexists. split; [exact Hmain|]. cbn [fs with_log].
  rewrite Happ, Hfs2. unfold file_data. cbn [nodes with_nodes]. rewrite lookup_insert_eq.
  rewrite bool_decide_eq_true_2 by (by eexists).
  cbn [rows map Csv.concat pads_year with_log]. rewrite string_app_nil_r.
  unfold snapshot_written, requested, main_started.
  by destruct (Nat.eqb (handlers w) 0).
Qed.

Lemma X20_witness :
  exists w',
    main ["iss.py"; SNAPSHOT] Sample.world0 = (Ret 0, w') /\
    file_data (fs w') SNAPSHOT =
      Sample.iss_dump +:+
      Csv.row_text
        (normalized_row 1700000000
           (Datetime.strftime_ymd_hms (pads_year Sample.world0)
              (Datetime.gmtime 1700000000)) Sample.lat Sample.lon).
Proof.
  refine (X20_main_on_the_snapshot_file "iss.py" Sample.world0
            (mkResponse 200 (JSON Sample.iss_body Sample.iss_dump)) _ Sample.iss_dump
            1700000000 Sample.lat Sample.lon eq_refl eq_refl eq_refl _ _ _ _ _);
    try (vm_compute; reflexivity).
  vm_compute. split; discriminate.
Defined.
